(** * pms backend: signup, login, profile update and the payment stub

    A shallow embedding of [backend/controllers/pmsfeature.js] and the
    properties its specification states about it.

    The file follows the source section by section: JavaScript values and
    string helpers, the bcryptjs and jsonwebtoken packages (which the
    source only calls), the Mongoose [User] model with its [pre("save")]
    hook, the [protect] middleware, and the route handlers. *)

From Stdlib Require Import String Ascii List Bool NArith ZArith Lia.
From Stdlib Require Import DecimalString DecimalN.
Import ListNotations.

Local Open Scope string_scope.
Local Open Scope list_scope.
Local Open Scope N_scope.

(* ================================================================== *)
(** * JavaScript values and strings *)
(* ================================================================== *)

Module JS.

(** An integer that a double holds exactly and that [toString()] prints
    in plain decimal: one below 2^53 in magnitude. *)
Record safe_integer : Type := mkSafe {
  int_value : Z;
  int_safe : (Z.abs int_value <? 9007199254740992)%Z = true
}.

(** The scalars [express.json()] puts in a field of [req.body]:
    [undefined] for a field the body does not have, [null], booleans,
    numbers that are safe integers, and strings. *)
Inductive jsval : Type :=
| JUndefined
| JNull
| JBool (b : bool)
| JNum (n : safe_integer)
| JStr (s : string).

(** [ToBoolean]: what [!v], [v || w] and [if (v)] test. *)
Definition truthy (v : jsval) : bool :=
  match v with
  | JUndefined | JNull => false
  | JBool b => b
  | JNum n => negb (Z.eqb (int_value n) 0)
  | JStr s => negb (String.eqb s "")
  end.

(** [v || w] *)
Definition js_or (v w : jsval) : jsval := if truthy v then v else w.

(** Decimal digits of a clock reading or counter, as a template literal
    prints them. *)
Definition decimal (n : N) : string := NilZero.string_of_uint (N.to_uint n).

(** [ToString] on scalars: template literals and [value.toString()]. *)
Definition js_to_string (v : jsval) : string :=
  match v with
  | JUndefined => "undefined"
  | JNull => "null"
  | JBool true => "true"
  | JBool false => "false"
  | JNum n => NilZero.string_of_int (Z.to_int (int_value n))
  | JStr s => s
  end.

(** Any value of a JSON body, for a handler that only tests it and puts
    it in a template literal: a scalar, or another value (an array, an
    object, a number that is not a safe integer) given by the string the
    template literal makes of it, [None] when that conversion throws a
    TypeError, as it does for [{"toString": 1}].  Such another value is
    truthy. *)
Inductive jsany : Type :=
| Scalar (v : jsval)
| Other (text : option string).

Definition truthy_any (v : jsany) : bool :=
  match v with
  | Scalar v => truthy v
  | Other _ => true
  end.

(** [`${v}`]: the string, or [None] when the conversion throws. *)
Definition interpolate (v : jsany) : option string :=
  match v with
  | Scalar v => Some (js_to_string v)
  | Other text => text
  end.

(** [s.startsWith(p)] *)
Definition startsWith (s p : string) : bool := String.prefix p s.

(** [s.split(sep)] for a one-character separator: every occurrence of
    the separator cuts, so the result is never empty and two adjacent
    separators give an empty segment. *)
Fixpoint split (sep : ascii) (s : string) : list string :=
  match s with
  | EmptyString => [EmptyString]
  | String c rest =>
      if Ascii.eqb c sep then EmptyString :: split sep rest
      else match split sep rest with
           | seg :: segs => String c seg :: segs
           | [] => [String c EmptyString]
           end
  end.

(** [a[i]] on an array of strings: [undefined] out of range. *)
Definition index (a : list string) (i : nat) : option string := nth_error a i.

(** Truthiness of a string-or-undefined variable ([!token]). *)
Definition truthy_str (t : option string) : bool :=
  match t with
  | None => false
  | Some s => negb (String.eqb s "")
  end.

(** No occurrence of the character in the string. *)
Fixpoint free_of (c : ascii) (s : string) : bool :=
  match s with
  | EmptyString => true
  | String d rest => negb (Ascii.eqb d c) && free_of c rest
  end.

End JS.
Import JS.

Example split_two_words : split " " "Bearer abc" = ["Bearer"; "abc"].
Proof. reflexivity. Qed.

Example split_no_separator : split " " "Bearer" = ["Bearer"].
Proof. reflexivity. Qed.

Example split_double_space : split " " "Bearer  abc" = ["Bearer"; ""; "abc"].
Proof. reflexivity. Qed.

Example decimal_example : decimal 1700000000000 = "1700000000000".
Proof. reflexivity. Qed.

(* ================================================================== *)
(** * bcryptjs *)
(* ================================================================== *)

Module Bcrypt.

(** What [bcrypt.genSalt(rounds)] returns: the cost factor and the
    random bits drawn for this call. *)
Record salt : Type := mkSalt { rounds : N; nonce : N }.

(** The value of the [password] path of a document: a string typed by
    a client, or the digest of one.  The digest is kept as a term, the
    usual symbolic reading of a one-way hash: it stands for a string
    that names its salt and that only [compare] can relate to a
    plaintext. *)
Inductive pwd : Type :=
| Plain (s : string)
| Digest (st : salt) (plain : pwd).

(** The characters of a value of the [password] path.  Those of a digest
    are what bcrypt printed, a function of the salt and of the string
    that was hashed; the model needs them only to tell whether a client
    sent exactly these characters. *)
Fixpoint text (p : pwd) : string :=
  match p with
  | Plain s => s
  | Digest st plain =>
      ("$2a$" ++ decimal (rounds st) ++ "$" ++ decimal (nonce st) ++ "$"
       ++ text plain)%string
  end.

(** Two values of the path have the same characters. *)
Definition same_text (a b : pwd) : bool := String.eqb (text a) (text b).

(** [bcrypt.genSalt(rounds)]; the random bits are an input. *)
Definition genSalt (rounds entropy : N) : salt := mkSalt rounds entropy.

(** Modelled from the spec: the package bcryptjs is not part of the
    repository.  "[hash(plaintext) -> digest] using a randomized
    per-call salt factor". *)
Definition hash (s : pwd) (st : salt) : pwd := Digest st s.

(** Modelled from the spec: the package bcryptjs is not part of the
    repository.  "deterministic verification:
    [verify(plaintext, digest) -> bool]"; "[verify(plaintext,
    hash(plaintext))] is always true; [verify(wrongPlaintext, hash)] is
    always false".  A stored value that is not the digest of a typed
    string matches nothing. *)
Definition compare (s : string) (h : pwd) : bool :=
  match h with
  | Digest _ (Plain p) => String.eqb s p
  | _ => false
  end.

End Bcrypt.
Import Bcrypt.

(* ================================================================== *)
(** * jsonwebtoken *)
(* ================================================================== *)

Module Jwt.

(** The two errors [jwt.verify] throws. *)
Inductive jwt_error : Type :=
| JsonWebTokenError
| TokenExpiredError.

(** What [jwt.verify] gives: the [id] of the decoded payload, or a
    thrown error. *)
Inductive verified : Type :=
| Decoded (id : N)
| Thrown (e : jwt_error).

(** Modelled from the spec: the package jsonwebtoken is not part of the
    repository.  "[issue(userId) -> token] embeds userId and an
    absolute expiry (fixed lifetime from issuance) under a server-held
    secret.  [verify(token) -> userId] fails with [InvalidToken] for
    malformed/unsigned input and [ExpiredToken] once past expiry."

    [sign id secret lifetime now] is [jwt.sign({ id }, secret,
    { expiresIn })] with the lifetime in seconds, called when the
    millisecond clock reads [now]; [verify token secret now] is
    [jwt.verify(token, secret)], whose first argument may be
    [undefined].  The expiry is kept in whole seconds.  A token is one
    segment of the header [Bearer <token>]: not empty, no space.
    Nothing is assumed about strings that [sign] did not produce, other
    than the empty one. *)
Class JsonWebToken : Type := {
  sign : N -> string -> N -> N -> string;
  verify : option string -> string -> N -> verified;
  verify_sign : forall id secret lifetime t0 t,
    verify (Some (sign id secret lifetime t0)) secret t =
    if t / 1000 <? t0 / 1000 + lifetime
    then Decoded id else Thrown TokenExpiredError;
  verify_undefined : forall secret t,
    verify None secret t = Thrown JsonWebTokenError;
  verify_empty : forall secret t,
    verify (Some "") secret t = Thrown JsonWebTokenError;
  sign_segment : forall id secret lifetime t0,
    truthy_str (Some (sign id secret lifetime t0)) = true /\
    free_of " " (sign id secret lifetime t0) = true
}.

End Jwt.
Import Jwt.

(* ================================================================== *)
(** * Errors and the error monad of the database calls *)
(* ================================================================== *)

(** What an awaited call throws into the handler's [catch]: the
    validation and duplicate-key errors of Mongoose, and the error of
    [bcrypt.compare]. *)
Inductive error : Type :=
| ValidationError (paths : list string)
| DuplicateKey
| IllegalArguments.

Inductive result (A : Type) : Type :=
| Ok (a : A)
| Throw (e : error).
Arguments Ok {A} a.
Arguments Throw {A} e.

Definition bind {A B : Type} (m : result A) (k : A -> result B) : result B :=
  match m with
  | Ok a => k a
  | Throw e => Throw e
  end.

Notation "x <- m ;; k" := (bind m (fun x => k))
  (at level 61, m at next level, right associativity).
Notation "' p <- m ;; k" := (bind m (fun x => let 'p := x in k))
  (at level 61, p pattern, m at next level, right associativity).

(** [bcrypt.compare(s, hash)] on whatever the body holds: the promise is
    rejected with "Illegal arguments" when [s] is not a string. *)
Definition compare_js (s : jsval) (h : pwd) : result bool :=
  match s with
  | JStr plaintext => Ok (compare plaintext h)
  | _ => Throw IllegalArguments
  end.

(* ================================================================== *)
(** * The User model *)
(* ================================================================== *)

Module Mongoose.

(** A document of the [users] collection, as [UserSchema] declares it.
    The [createdAt] and [updatedAt] stamps of [timestamps: true] are
    read by no handler and are left out. *)
Record User : Type := mkUser {
  _id : N;
  username : string;
  email : string;
  password : pwd;
  firstName : option string;
  lastName : option string;
  phoneNumber : option string
}.

(** The collection in insertion order, and the next identifier the
    driver hands out. *)
Record Database : Type := mkDatabase {
  users : list User;
  next_id : N
}.

Definition empty : Database := mkDatabase [] 0.

(** [User.findOne({ email })] *)
Definition findOne_email (db : Database) (e : string) : option User :=
  find (fun u => String.eqb (email u) e) (users db).

(** [User.findById(id)] *)
Definition findById (db : Database) (id : N) : option User :=
  find (fun u => N.eqb (_id u) id) (users db).

(** The [required: true] validators of [username], [email] and
    [password]; a required string fails when it is empty. *)
Definition missing (path : string) (empty_value : bool) : list string :=
  if empty_value then [path] else [].

Definition is_empty (p : pwd) : bool :=
  match p with
  | Plain s => String.eqb s ""
  | Digest _ _ => false
  end.

Definition validate (this : User) : result unit :=
  match missing "username" (String.eqb (username this) "")
        ++ missing "email" (String.eqb (email this) "")
        ++ missing "password" (is_empty (password this)) with
  | [] => Ok tt
  | paths => Throw (ValidationError paths)
  end.

(** [UserSchema.pre("save", ...)]: the password is hashed when it has
    been modified.  [entropy] is what [genSalt] draws if it runs. *)
Definition pre_save (isModified_password : bool) (entropy : N) (this : User) : User :=
  if isModified_password then
    let st := genSalt 10 entropy in
    mkUser (_id this) (username this) (email this)
           (hash (password this) st)
           (firstName this) (lastName this) (phoneNumber this)
  else this.

(** The two [unique: true] indexes, checked against the documents
    [others]. *)
Definition taken (path : User -> string) (v : string) (others : list User) : bool :=
  existsb (fun u => String.eqb (path u) v) others.

Definition unique (this : User) (others : list User) : result unit :=
  if taken username (username this) others || taken email (email this) others
  then Throw DuplicateKey else Ok tt.

(** [User.create({ username, email, password })]: a new document, on
    which every path that was set counts as modified; validation, then
    the [pre("save")] hook, then the insert. *)
Definition create (db : Database) (u e p : string) (entropy : N)
  : result (User * Database) :=
  let this := mkUser (next_id db) u e (Plain p) None None None in
  _ <- validate this ;;
  let this := pre_save true entropy this in
  _ <- unique this (users db) ;;
  Ok (this, mkDatabase (users db ++ [this]) (N.succ (next_id db))).

(** Replace the document that has the identifier of [this]. *)
Definition replace (this : User) (l : list User) : list User :=
  map (fun u => if N.eqb (_id u) (_id this) then this else u) l.

Definition others (this : User) (l : list User) : list User :=
  filter (fun u => negb (N.eqb (_id u) (_id this))) l.

(** [this.save()] on a document that was loaded as [loaded]:
    [isModified("password")] holds when the path no longer has the
    characters it was loaded with. *)
Definition save (db : Database) (loaded this : User) (entropy : N)
  : result (User * Database) :=
  _ <- validate this ;;
  let this :=
    pre_save (negb (same_text (password this) (password loaded))) entropy this in
  _ <- unique this (others this (users db)) ;;
  Ok (this, mkDatabase (replace this (users db)) (next_id db)).

End Mongoose.
Import Mongoose.

(* ================================================================== *)
(** * Requests and responses *)
(* ================================================================== *)

(** Body of [POST /api/auth/signup]; the three fields are JSON strings. *)
Module Signup.
Record body : Type := mk { username : string; email : string; password : string }.
End Signup.

(** Body of [POST /api/auth/login]; the email is a JSON string, the
    password any scalar or missing. *)
Module Login.
Record body : Type := mk { email : string; password : jsval }.
End Login.

(** Body of [PUT /api/auth/profile]: any subset of the six fields, of any
    scalar value. *)
Module Profile.
Record body : Type := mk {
  username : jsval;
  email : jsval;
  firstName : jsval;
  lastName : jsval;
  phoneNumber : jsval;
  password : jsval
}.
End Profile.

(** Body of [POST /api/payment]. *)
Module Payment.
Record body : Type := mk {
  cardNumber : jsany;
  expiryDate : jsany;
  cvv : jsany;
  cardHolderName : jsany;
  amount : jsany
}.
End Payment.

(** The objects the handlers pass to [res.json]. *)
Inductive json : Type :=
| Message (message : string)
| ErrorMessage (e : error)
| Account (id : N) (name mail token : string)
| ProfileOf (id : N) (name mail : string)
            (first last phone : option string) (token : string)
| Receipt (message transactionId : string) (amount : jsany) (state : string).

(** [res.status(status).json(payload)]; [res.json] alone has status 200. *)
Record response : Type := mkResponse { status : N; payload : json }.

(** What a middleware does with a request: it calls
    [res.status(..).json(..)], or it calls [next()] after setting
    [req.user]. *)
Inductive effect : Type :=
| Respond (r : response)
| Next (user : N).

(** A line on the console: [console.log(text)], or
    [console.error(text, error)], of which the text is kept. *)
Inductive line : Type :=
| Log (text : string)
| Error (text : string).

(** The process as a handler can change it: the collection and the
    lines written to the console. *)
Record World : Type := mkWorld { db : Database; console : list line }.

(* ================================================================== *)
(** * Middleware and route handlers *)
(* ================================================================== *)

(** The cast of a value assigned to a String path of a document:
    [null] and [undefined] stay what they are, any other scalar becomes
    [value.toString()]. *)
Definition castString (v : jsval) : option string :=
  match v with
  | JUndefined | JNull => None
  | _ => Some (js_to_string v)
  end.

(** Reading a String path that may be undefined. *)
Definition of_path (s : option string) : jsval :=
  match s with
  | Some s => JStr s
  | None => JUndefined
  end.

(** [req.body.x || user.x] assigned to a String path that always has a
    value: a truthy request value is cast with [toString()], otherwise
    the path keeps what it had. *)
Definition or_string (v : jsval) (old : string) : string :=
  if truthy v then js_to_string v else old.

(** The same for a path that may be undefined. *)
Definition or_optional (v : jsval) (old : option string) : option string :=
  if truthy v then Some (js_to_string v) else old.

(** [if (req.body.password) user.password = req.body.password]: the
    value is cast to a string; an assignment of the very characters the
    path has leaves the path as it is, and unmodified. *)
Definition or_password (v : jsval) (old : pwd) : pwd :=
  if truthy v then
    if String.eqb (js_to_string v) (text old) then old
    else Plain (js_to_string v)
  else old.

(** The document [updateUserProfile] hands to [save]: the six
    assignments, in the order of the source. *)
Definition edited (user : User) (body : Profile.body) : User :=
  let username' := or_string (Profile.username body) (username user) in
  let email' := or_string (Profile.email body) (email user) in
  let firstName' := or_optional (Profile.firstName body) (firstName user) in
  let lastName' := or_optional (Profile.lastName body) (lastName user) in
  let phoneNumber' := or_optional (Profile.phoneNumber body) (phoneNumber user) in
  let password' := or_password (Profile.password body) (password user) in
  mkUser (_id user) username' email' password' firstName' lastName' phoneNumber'.

Section Handlers.

Context {J : JsonWebToken}.

(** [process.env.JWT_SECRET], as a configured server has it: with a
    secret, [jwt.sign] returns a token and does not throw. *)
Variable JWT_SECRET : string.

(** [protect]: the effects of one call, in the order they happen.
    [now] is the clock when [jwt.verify] runs. *)
Definition protect (authorization : option string) (now : N) : list effect :=
  let '(token, sent) :=
    match authorization with
    | Some header =>
        if truthy_str (Some header) && startsWith header "Bearer" then
          let token := index (split " " header) 1 in
          match verify token JWT_SECRET now with
          | Decoded id => (token, [Next id])
          | Thrown _ =>
              (token,
               [Respond (mkResponse 401 (Message "Not authorized, token failed"))])
          end
        else (None, [])
    | None => (None, [])
    end in
  sent ++
  (if negb (truthy_str token)
   then [Respond (mkResponse 401 (Message "Not authorized, no token"))]
   else []).

(** [generateToken]: [expiresIn: "1h"] is 3600 seconds. *)
Definition generateToken (id : N) (now : N) : string :=
  sign id JWT_SECRET 3600 now.

(** [registerUser].  [User.create] resolves to a document or throws, and
    a document is truthy: the [else] branch of [if (user)], with its 400
    "Invalid user data", is never taken. *)
Definition registerUser (d : Database) (body : Signup.body) (entropy now : N)
  : response * Database :=
  match findOne_email d (Signup.email body) with
  | Some _ => (mkResponse 400 (Message "User already exists"), d)
  | None =>
      match create d (Signup.username body) (Signup.email body)
                   (Signup.password body) entropy with
      | Ok (user, d') =>
          (mkResponse 201
             (Account (_id user) (username user) (email user)
                      (generateToken (_id user) now)), d')
      | Throw e => (mkResponse 500 (ErrorMessage e), d)
      end
  end.

(** [loginUser]: [bcrypt.compare] runs only when the email is that of a
    stored user; what it throws goes to the [catch]. *)
Definition loginUser (d : Database) (body : Login.body) (now : N) : response :=
  match findOne_email d (Login.email body) with
  | Some user =>
      match compare_js (Login.password body) (password user) with
      | Ok true =>
          mkResponse 200
            (Account (_id user) (username user) (email user)
                     (generateToken (_id user) now))
      | Ok false => mkResponse 401 (Message "Invalid email or password")
      | Throw e => mkResponse 500 (ErrorMessage e)
      end
  | None => mkResponse 401 (Message "Invalid email or password")
  end.

(** [updateUserProfile]; [req_user] is what [protect] put in
    [req.user]. *)
Definition updateUserProfile (d : Database) (req_user : N) (body : Profile.body)
                             (entropy now : N) : response * Database :=
  match findById d req_user with
  | Some user =>
      match save d user (edited user body) entropy with
      | Ok (updatedUser, d') =>
          (mkResponse 200
             (ProfileOf (_id updatedUser) (username updatedUser)
                        (email updatedUser) (firstName updatedUser)
                        (lastName updatedUser) (phoneNumber updatedUser)
                        (generateToken (_id updatedUser) now)), d')
      | Throw e => (mkResponse 500 (ErrorMessage e), d)
      end
  | None => (mkResponse 404 (Message "User not found"), d)
  end.

(** [logoutUser] *)
Definition logoutUser : response :=
  mkResponse 200 (Message "User logged out (token removed client-side)").

(** A protected route, [app.put(path, protect, handler)]: the calls of
    [res.json] made for one request, in order, and the state afterwards.
    The handler runs when [protect] calls [next()].  Express sends the
    first call; a second call on the same response is an attempt that
    throws ERR_HTTP_HEADERS_SENT. *)
Definition guarded {S : Type} (authorization : option string) (now : N)
           (handler : N -> S -> response * S) (s : S) : list response * S :=
  fold_left
    (fun acc e =>
       match e with
       | Respond r => (fst acc ++ [r], snd acc)
       | Next user =>
           let '(r, s') := handler user (snd acc) in (fst acc ++ [r], s')
       end)
    (protect authorization now) ([], s).

(** [app.put("/api/auth/profile", protect, updateUserProfile)] *)
Definition put_api_auth_profile (authorization : option string)
           (body : Profile.body) (entropy now : N) (d : Database)
  : list response * Database :=
  guarded authorization now
          (fun user d => updateUserProfile d user body entropy now) d.

(** The databases the handlers can produce, from the empty collection. *)
Inductive reachable : Database -> Prop :=
| reach_empty : reachable empty
| reach_register d b entropy now :
    reachable d ->
    reachable (snd (registerUser d b entropy now))
| reach_update d id body entropy now :
    reachable d ->
    reachable (snd (updateUserProfile d id body entropy now)).

End Handlers.

(** A template literal with two or three holes: the string, or [None]
    when the conversion of a value throws. *)
Definition template2 (a : string) (x : jsany) (b : string) (y : jsany)
  : option string :=
  match interpolate x, interpolate y with
  | Some sx, Some sy => Some (a ++ sx ++ b ++ sy)%string
  | _, _ => None
  end.

Definition template3 (a : string) (x : jsany) (b : string) (y : jsany)
           (c : string) (z : jsany) : option string :=
  match interpolate x, interpolate y, interpolate z with
  | Some sx, Some sy, Some sz => Some (a ++ sx ++ b ++ sy ++ c ++ sz)%string
  | _, _, _ => None
  end.

(** What the [catch] of [processPayment] does. *)
Definition payment_failed (w : World) : response * World :=
  (mkResponse 500 (Message "Payment failed. Please try again."),
   mkWorld (db w) (console w ++ [Error "Payment processing error:"])).

(** [processPayment]; [now] is what [Date.now()] returns after the
    simulated delay.  In the [try] block the two template literals can
    throw. *)
Definition processPayment (w : World) (body : Payment.body) (now : N)
  : response * World :=
  if negb (truthy_any (Payment.cardNumber body))
     || negb (truthy_any (Payment.expiryDate body))
     || negb (truthy_any (Payment.cvv body))
     || negb (truthy_any (Payment.cardHolderName body))
     || negb (truthy_any (Payment.amount body))
  then (mkResponse 400 (Message "Missing payment details."), w)
  else
    match template2 "Processing payment for " (Payment.cardHolderName body)
                    " with amount " (Payment.amount body) with
    | None => payment_failed w
    | Some line1 =>
        let w1 := mkWorld (db w) (console w ++ [Log line1]) in
        match template3 "Card Number: " (Payment.cardNumber body)
                        ", Expiry: " (Payment.expiryDate body)
                        ", CVV: " (Payment.cvv body) with
        | None => payment_failed w1
        | Some line2 =>
            let transactionId := ("TXN_" ++ decimal now)%string in
            (mkResponse 200
               (Receipt "Payment processed successfully!" transactionId
                        (Payment.amount body) "completed"),
             mkWorld (db w1) (console w1 ++ [Log line2]))
        end
    end.

(** [app.post("/api/payment", protect, processPayment)]; [now] is the
    clock when the gate runs, [later] when the receipt is made. *)
Definition post_api_payment {J : JsonWebToken} (JWT_SECRET : string)
           (authorization : option string) (body : Payment.body)
           (now later : N) (w : World) : list response * World :=
  guarded JWT_SECRET authorization now
          (fun _ w => processPayment w body later) w.

(* ================================================================== *)
(** * Vocabulary of the properties *)
(* ================================================================== *)

(** A 401 answer of the gate. *)
Definition unauthorized (message : string) : effect :=
  Respond (mkResponse 401 (Message message)).

(** The 401 answer of [loginUser]. *)
Definition invalid_credentials : response :=
  mkResponse 401 (Message "Invalid email or password").

(** The stored passwords are digests. *)
Definition is_digest (p : pwd) : bool :=
  match p with
  | Digest _ _ => true
  | Plain _ => false
  end.

Definition hashed (d : Database) : Prop :=
  forall u, In u (users d) -> is_digest (password u) = true.

(** The unique indexes hold: no two documents share an identifier, an
    email or a username. *)
Definition indexed (d : Database) : Prop :=
  NoDup (map _id (users d)) /\
  NoDup (map email (users d)) /\
  NoDup (map username (users d)) /\
  forall u, In u (users d) -> _id u < next_id d.

(** The six fields a profile update can carry. *)
Inductive field : Type :=
| Username | Email | FirstName | LastName | PhoneNumber | Password.

(** [req.body[f]] *)
Definition requested (f : field) (body : Profile.body) : jsval :=
  match f with
  | Username => Profile.username body
  | Email => Profile.email body
  | FirstName => Profile.firstName body
  | LastName => Profile.lastName body
  | PhoneNumber => Profile.phoneNumber body
  | Password => Profile.password body
  end.

(** The body without the field [f]. *)
Definition omit (f : field) (body : Profile.body) : Profile.body :=
  let pick g := if match f, g with
                   | Username, Username | Email, Email
                   | FirstName, FirstName | LastName, LastName
                   | PhoneNumber, PhoneNumber | Password, Password => true
                   | _, _ => false
                   end
                then JUndefined else requested g body in
  Profile.mk (pick Username) (pick Email) (pick FirstName)
             (pick LastName) (pick PhoneNumber) (pick Password).

(** The value a stored document has at the path [f]; [None] is
    [undefined]. *)
Definition stored (f : field) (u : User) : option pwd :=
  match f with
  | Username => Some (Plain (username u))
  | Email => Some (Plain (email u))
  | FirstName => option_map Plain (firstName u)
  | LastName => option_map Plain (lastName u)
  | PhoneNumber => option_map Plain (phoneNumber u)
  | Password => Some (password u)
  end.

(** A signup body whose three required strings are not empty. *)
Definition filled (b : Signup.body) : Prop :=
  Signup.username b <> EmptyString /\
  Signup.email b <> EmptyString /\
  Signup.password b <> EmptyString.

(** No stored user has the email or the username of the body. *)
Definition unused (d : Database) (b : Signup.body) : Prop :=
  forall v, In v (users d) ->
            email v <> Signup.email b /\ username v <> Signup.username b.

(** The field is in the body, whatever its value. *)
Definition present (v : jsany) : bool :=
  match v with
  | Scalar JUndefined => false
  | _ => true
  end.

(** The test of [processPayment], negated: all five fields are truthy. *)
Definition all_truthy (body : Payment.body) : bool :=
  truthy_any (Payment.cardNumber body) && truthy_any (Payment.expiryDate body)
  && truthy_any (Payment.cvv body) && truthy_any (Payment.cardHolderName body)
  && truthy_any (Payment.amount body).

(** The two template literals of [processPayment] can be made. *)
Definition printable (body : Payment.body) : bool :=
  match interpolate (Payment.cardHolderName body),
        interpolate (Payment.amount body),
        interpolate (Payment.cardNumber body),
        interpolate (Payment.expiryDate body),
        interpolate (Payment.cvv body) with
  | Some _, Some _, Some _, Some _, Some _ => true
  | _, _, _, _, _ => false
  end.

Definition all_present (body : Payment.body) : bool :=
  present (Payment.cardNumber body) && present (Payment.expiryDate body)
  && present (Payment.cvv body) && present (Payment.cardHolderName body)
  && present (Payment.amount body).

(** The [transactionId] of a payment receipt. *)
Definition transactionId_of (r : response) : option string :=
  match payload r with
  | Receipt _ id _ _ => Some id
  | _ => None
  end.

(* ================================================================== *)
(** * A token package to run the handlers with *)
(* ================================================================== *)

(** An implementation of the [JsonWebToken] interface that can be
    evaluated: [t], the identifier in unary, a dot, and the expiry second
    in unary.  It shows that the interface can be met and gives the
    examples below something to compute with; the theorems are stated for
    every implementation of the interface. *)
Module MockJwt.

Fixpoint tally (c : ascii) (n : nat) (tail : string) : string :=
  match n with
  | O => tail
  | S k => String c (tally c k tail)
  end.

Definition mock_sign (id : N) (secret : string) (lifetime now : N) : string :=
  String "t"
    (tally "i" (N.to_nat id)
       (String "." (tally "e" (N.to_nat (now / 1000 + lifetime)) EmptyString))).

(** The number of leading [c], and what follows them. *)
Fixpoint count (c : ascii) (s : string) : nat * string :=
  match s with
  | EmptyString => (O, EmptyString)
  | String d rest =>
      if Ascii.eqb d c
      then let '(n, tail) := count c rest in (S n, tail)
      else (O, s)
  end.

Definition mock_verify (token : option string) (secret : string) (now : N)
  : verified :=
  match token with
  | Some (String "t" s) =>
      match count "i" s with
      | (id, String "." s') =>
          match count "e" s' with
          | (expiry, EmptyString) =>
              if now / 1000 <? N.of_nat expiry
              then Decoded (N.of_nat id) else Thrown TokenExpiredError
          | _ => Thrown JsonWebTokenError
          end
      | _ => Thrown JsonWebTokenError
      end
  | _ => Thrown JsonWebTokenError
  end.

Definition starts_with_other (c : ascii) (s : string) : Prop :=
  match s with
  | EmptyString => True
  | String d _ => Ascii.eqb d c = false
  end.

Lemma count_tally (c : ascii) (n : nat) (tail : string) :
  starts_with_other c tail -> count c (tally c n tail) = (n, tail).
Proof.
  intros Htail. induction n as [|n IH]; simpl.
  - destruct tail as [|d tail]; simpl in *; [reflexivity|].
    now rewrite Htail.
  - now rewrite Ascii.eqb_refl, IH.
Qed.

Lemma free_of_tally (sep c : ascii) (n : nat) (tail : string) :
  Ascii.eqb c sep = false -> free_of sep tail = true ->
  free_of sep (tally c n tail) = true.
Proof.
  intros Hc Htail. induction n as [|n IH]; simpl; [assumption|].
  now rewrite Hc, IH.
Qed.

Lemma mock_verify_sign (id : N) (secret : string) (lifetime t0 t : N) :
  mock_verify (Some (mock_sign id secret lifetime t0)) secret t =
  if t / 1000 <? t0 / 1000 + lifetime
  then Decoded id else Thrown TokenExpiredError.
Proof.
  unfold mock_verify, mock_sign.
  rewrite count_tally by reflexivity.
  rewrite count_tally by exact I.
  now rewrite !N2Nat.id.
Qed.

Lemma mock_sign_segment (id : N) (secret : string) (lifetime t0 : N) :
  truthy_str (Some (mock_sign id secret lifetime t0)) = true /\
  free_of " " (mock_sign id secret lifetime t0) = true.
Proof.
  split; [reflexivity|].
  unfold mock_sign. cbn [free_of]. rewrite free_of_tally; try reflexivity.
  cbn [free_of]. now rewrite free_of_tally.
Qed.

#[export] Instance mock : JsonWebToken := {|
  sign := mock_sign;
  verify := mock_verify;
  verify_sign := mock_verify_sign;
  verify_undefined := fun _ _ => eq_refl;
  verify_empty := fun _ _ => eq_refl;
  sign_segment := mock_sign_segment
|}.

End MockJwt.

Example mock_token : MockJwt.mock_sign 2 "s3cret" 3 5000 = "tii.eeeeeeee".
Proof. reflexivity. Qed.

(* ================================================================== *)
(** * Strings *)
(* ================================================================== *)

Lemma split_not_nil (sep : ascii) (s : string) : split sep s <> [].
Proof.
  destruct s as [|c s]; simpl; [discriminate|].
  destruct (Ascii.eqb c sep); [discriminate|].
  destruct (split sep s); discriminate.
Qed.

(** A string without the separator is its own single segment. *)
Lemma split_free (sep : ascii) (s : string) :
  free_of sep s = true -> split sep s = [s].
Proof.
  induction s as [|c s IH]; simpl; [reflexivity|].
  intros H. apply andb_prop in H as [Hc Hs].
  apply negb_true_iff in Hc. rewrite Hc, (IH Hs). reflexivity.
Qed.

(** The first cut is at the first separator. *)
Lemma split_append (sep : ascii) (a b : string) :
  free_of sep a = true ->
  split sep (a ++ String sep b) = a :: split sep b.
Proof.
  induction a as [|c a IH]; simpl.
  - intros _. now rewrite Ascii.eqb_refl.
  - intros H. apply andb_prop in H as [Hc Ha].
    apply negb_true_iff in Hc. rewrite Hc, (IH Ha). reflexivity.
Qed.

Lemma bearer_header_token (token : string) :
  free_of " " token = true ->
  index (split " " ("Bearer " ++ token)) 1 = Some token.
Proof.
  intros H.
  change ("Bearer " ++ token)%string with ("Bearer" ++ String " " token)%string.
  rewrite split_append by reflexivity.
  now rewrite (split_free _ _ H).
Qed.

Lemma startsWith_nonempty (s p : string) :
  p <> EmptyString -> startsWith s p = true -> truthy_str (Some s) = true.
Proof.
  intros Hp H. destruct s as [|c s]; [|reflexivity].
  destruct p; [contradiction|discriminate].
Qed.

Lemma bearer_nonempty (header : string) :
  startsWith header "Bearer" = true -> truthy_str (Some header) = true.
Proof. apply startsWith_nonempty. discriminate. Qed.

Lemma decimal_inj (n m : N) : decimal n = decimal m -> n = m.
Proof.
  unfold decimal. intros H.
  apply Unsigned.to_uint_inj.
  assert (Hn : N.to_uint n <> Decimal.Nil) by (destruct n; [discriminate | apply DecimalPos.Unsigned.to_uint_nonnil]).
  assert (Hm : N.to_uint m <> Decimal.Nil) by (destruct m; [discriminate | apply DecimalPos.Unsigned.to_uint_nonnil]).
  pose proof (NilZero.usu _ Hn) as En.
  pose proof (NilZero.usu _ Hm) as Em.
  rewrite H in En. rewrite En in Em. now injection Em.
Qed.

(** [or_string], [or_optional] and [or_password] are the [||] of the
    source followed by the cast of the assignment. *)
Lemma or_string_cast (v : jsval) (old : string) :
  castString (js_or v (JStr old)) = Some (or_string v old).
Proof.
  unfold js_or, or_string. destruct (truthy v) eqn:Hv; [|reflexivity].
  destruct v; try discriminate; reflexivity.
Qed.

Lemma or_optional_cast (v : jsval) (old : option string) :
  castString (js_or v (of_path old)) = or_optional v old.
Proof.
  unfold js_or, or_optional. destruct (truthy v) eqn:Hv.
  - destruct v; try discriminate; reflexivity.
  - now destruct old.
Qed.

Lemma or_password_cast (v : jsval) (old : pwd) :
  or_password v old =
  if truthy v then match castString v with
                   | Some s => if String.eqb s (text old) then old else Plain s
                   | None => old
                   end
  else old.
Proof.
  unfold or_password. destruct (truthy v) eqn:Hv; [|reflexivity].
  destruct v; try discriminate; reflexivity.
Qed.

(** A truthy scalar is cast to a string that is not empty. *)
Lemma js_to_string_truthy (v : jsval) :
  truthy v = true -> js_to_string v <> EmptyString.
Proof.
  destruct v as [| |[|]|[z Hz]|s]; simpl; try discriminate.
  - intros _. destruct z as [|p|p]; simpl; try discriminate.
    + unfold NilZero.string_of_uint.
      pose proof (DecimalPos.Unsigned.to_uint_nonnil p) as Hp.
      destruct (Pos.to_uint p); [contradiction | discriminate..].
  - intros H E. subst s. discriminate.
Qed.

(* ================================================================== *)
(** * The Auth Gate *)
(* ================================================================== *)

Section Gate.

Context {J : JsonWebToken}.
Variable JWT_SECRET : string.

Lemma verify_falsy (token : option string) (now : N) :
  truthy_str token = false ->
  verify token JWT_SECRET now = Thrown JsonWebTokenError.
Proof.
  destruct token as [s|]; simpl.
  - intros H. apply negb_false_iff, String.eqb_eq in H. subst s.
    apply verify_empty.
  - intros _. apply verify_undefined.
Qed.

(** No header: one 401, "no token". *)
Lemma protect_no_header (now : N) :
  protect JWT_SECRET None now = [unauthorized "Not authorized, no token"].
Proof. reflexivity. Qed.

(** A header without the prefix: one 401, "no token". *)
Lemma protect_other_scheme (header : string) (now : N) :
  startsWith header "Bearer" = false ->
  protect JWT_SECRET (Some header) now =
  [unauthorized "Not authorized, no token"].
Proof.
  intros H. unfold protect. rewrite H, andb_false_r. reflexivity.
Qed.

(** A token segment that [jwt.verify] rejects: one 401, "token
    failed". *)
Lemma protect_rejected_token (header token : string) (e : jwt_error) (now : N) :
  startsWith header "Bearer" = true ->
  index (split " " header) 1 = Some token ->
  token <> EmptyString ->
  verify (Some token) JWT_SECRET now = Thrown e ->
  protect JWT_SECRET (Some header) now =
  [unauthorized "Not authorized, token failed"].
Proof.
  intros Hp Hi Hne Hv. unfold protect.
  rewrite Hp, (bearer_nonempty _ Hp), Hi, Hv.
  simpl. apply String.eqb_neq in Hne. now rewrite Hne.
Qed.

(** A token that verifies: [req.user] is set, [next()] is called and
    nothing is sent. *)
Lemma protect_accepted_token (header token : string) (id now : N) :
  startsWith header "Bearer" = true ->
  index (split " " header) 1 = Some token ->
  token <> EmptyString ->
  verify (Some token) JWT_SECRET now = Decoded id ->
  protect JWT_SECRET (Some header) now = [Next id].
Proof.
  intros Hp Hi Hne Hv. unfold protect.
  rewrite Hp, (bearer_nonempty _ Hp), Hi, Hv.
  simpl. apply String.eqb_neq in Hne. now rewrite Hne.
Qed.

(** The prefix with no token after it: the [catch] branch answers, and
    the test of [token] after the [try] answers again. *)
Lemma protect_prefix_only (header : string) (now : N) :
  startsWith header "Bearer" = true ->
  truthy_str (index (split " " header) 1) = false ->
  protect JWT_SECRET (Some header) now =
  [unauthorized "Not authorized, token failed";
   unauthorized "Not authorized, no token"].
Proof.
  intros Hp Hi. unfold protect.
  rewrite Hp, (bearer_nonempty _ Hp).
  rewrite (verify_falsy _ _ Hi). cbn [andb app]. now rewrite Hi.
Qed.

(** C10. A header made of the "Bearer" prefix with no token segment
    after it takes the catch branch, which sends 401 "Not authorized,
    token failed"; the token variable is still undefined (or empty), so
    the trailing check sends 401 "Not authorized, no token" as well:
    two responses for one request, not exactly one. *)
Theorem protect_bearer_without_token_responds_twice :
  forall (header : string) (now : N),
    startsWith header "Bearer" = true ->
    truthy_str (index (split " " header) 1) = false ->
    protect JWT_SECRET (Some header) now =
    [Respond (mkResponse 401 (Message "Not authorized, token failed"));
     Respond (mkResponse 401 (Message "Not authorized, no token"))]
    /\ length (protect JWT_SECRET (Some header) now) <> 1%nat.
Proof.
  intros header now Hp Hi.
  rewrite (protect_prefix_only header now Hp Hi).
  split; [reflexivity | discriminate].
Qed.

(** C2, at the input on which the code departs from it: for the header
    "Bearer" alone the gate writes two 401 responses, "token failed"
    and then "no token", whatever the token package and the clock. *)
Theorem protect_bare_bearer_header :
  forall now : N,
    protect JWT_SECRET (Some "Bearer") now =
    [Respond (mkResponse 401 (Message "Not authorized, token failed"));
     Respond (mkResponse 401 (Message "Not authorized, no token"))].
Proof.
  intros now. unfold protect. simpl.
  rewrite verify_undefined. reflexivity.
Qed.

(** On every other path the gate has exactly one effect: whenever the
    variable [token] ends up truthy, or the header is missing or has
    another scheme. *)
Lemma protect_single_effect (authorization : option string) (now : N) :
  match authorization with
  | Some header =>
      startsWith header "Bearer" = true ->
      truthy_str (index (split " " header) 1) = true
  | None => True
  end ->
  length (protect JWT_SECRET authorization now) = 1%nat.
Proof.
  destruct authorization as [header|]; [|reflexivity].
  intros H. destruct (startsWith header "Bearer") eqn:Hp.
  - specialize (H eq_refl).
    destruct (index (split " " header) 1) as [token|] eqn:Hi; [|discriminate].
    assert (Hne : token <> EmptyString)
      by (intros ->; simpl in H; discriminate).
    destruct (verify (Some token) JWT_SECRET now) as [id|e] eqn:Hv.
    + now rewrite (protect_accepted_token header token id now).
    + now rewrite (protect_rejected_token header token e now).
  - now rewrite protect_other_scheme.
Qed.

(** [jwt.verify] on the token [generateToken] made. *)
Lemma verify_generated (id t0 t : N) :
  verify (Some (generateToken JWT_SECRET id t0)) JWT_SECRET t =
  if t / 1000 <? t0 / 1000 + 3600
  then Decoded id else Thrown TokenExpiredError.
Proof. apply verify_sign. Qed.

Lemma verify_fresh (id t0 : N) :
  verify (Some (generateToken JWT_SECRET id t0)) JWT_SECRET t0 = Decoded id.
Proof.
  rewrite verify_generated.
  destruct (N.ltb_spec (t0 / 1000) (t0 / 1000 + 3600)); [reflexivity | lia].
Qed.

(** The token lives for the 3599 seconds that follow its issuance. *)
Lemma verify_within_lifetime (id t0 t : N) :
  t <= t0 + 3599000 ->
  verify (Some (generateToken JWT_SECRET id t0)) JWT_SECRET t = Decoded id.
Proof.
  intros H. rewrite verify_generated.
  destruct (N.ltb_spec (t / 1000) (t0 / 1000 + 3600)) as [|Hge]; [reflexivity|].
  exfalso.
  assert (Hdiv : t / 1000 <= (t0 + 3599 * 1000) / 1000)
    by (apply N.Div0.div_le_mono; lia).
  rewrite N.div_add in Hdiv by lia. lia.
Qed.

(** One hour after issuance, to the millisecond, the token is dead. *)
Lemma verify_after_one_hour (id t0 t : N) :
  t0 + 3600000 <= t ->
  verify (Some (generateToken JWT_SECRET id t0)) JWT_SECRET t =
  Thrown TokenExpiredError.
Proof.
  intros H. rewrite verify_generated.
  destruct (N.ltb_spec (t / 1000) (t0 / 1000 + 3600)) as [Hlt|]; [|reflexivity].
  exfalso.
  assert (Hdiv : (t0 + 3600 * 1000) / 1000 <= t / 1000)
    by (apply N.Div0.div_le_mono; lia).
  rewrite N.div_add in Hdiv by lia. lia.
Qed.

Lemma bearer_of_generated (id t0 : N) :
  startsWith ("Bearer " ++ generateToken JWT_SECRET id t0) "Bearer" = true /\
  index (split " " ("Bearer " ++ generateToken JWT_SECRET id t0)) 1 =
  Some (generateToken JWT_SECRET id t0) /\
  generateToken JWT_SECRET id t0 <> EmptyString.
Proof.
  destruct (sign_segment id JWT_SECRET 3600 t0) as [Hne Hfree].
  repeat split.
  - now apply bearer_header_token.
  - intros E. unfold generateToken in E. rewrite E in Hne. discriminate.
Qed.

Lemma protect_fresh_token (id t0 : N) :
  protect JWT_SECRET (Some ("Bearer " ++ generateToken JWT_SECRET id t0)%string) t0 =
  [Next id].
Proof.
  destruct (bearer_of_generated id t0) as (Hp & Hi & Hne).
  apply (protect_accepted_token _ (generateToken JWT_SECRET id t0)); auto.
  apply verify_fresh.
Qed.

Lemma protect_live_token (id t0 t : N) :
  t <= t0 + 3599000 ->
  protect JWT_SECRET (Some ("Bearer " ++ generateToken JWT_SECRET id t0)%string) t =
  [Next id].
Proof.
  intros H. destruct (bearer_of_generated id t0) as (Hp & Hi & Hne).
  apply (protect_accepted_token _ (generateToken JWT_SECRET id t0)); auto.
  now apply verify_within_lifetime.
Qed.

(** C3. A token verified at the clock reading at which it was issued,
    or at any later one up to 3599 seconds after, gives back the user
    identifier it was issued for, and the gate lets the request through
    as that user; verified at any time more than one hour (3 600 000 ms)
    after issuance, [jwt.verify] throws [TokenExpiredError] and the gate
    answers 401 "token failed".  In between, the token lives until the
    clock, in whole seconds, is 3600 past the second of issuance. *)
Theorem token_round_trip_and_expiry :
  forall (userId t0 t : N),
    let token := generateToken JWT_SECRET userId t0 in
    (verify (Some token) JWT_SECRET t0 = Decoded userId /\
     protect JWT_SECRET (Some ("Bearer " ++ token)%string) t0 = [Next userId])
    /\
    (t0 <= t <= t0 + 3599000 ->
     verify (Some token) JWT_SECRET t = Decoded userId /\
     protect JWT_SECRET (Some ("Bearer " ++ token)%string) t = [Next userId])
    /\
    (t0 + 3600000 < t ->
     verify (Some token) JWT_SECRET t = Thrown TokenExpiredError /\
     protect JWT_SECRET (Some ("Bearer " ++ token)%string) t =
     [Respond (mkResponse 401 (Message "Not authorized, token failed"))])
    /\
    verify (Some token) JWT_SECRET t =
    (if t / 1000 <? t0 / 1000 + 3600
     then Decoded userId else Thrown TokenExpiredError).
Proof.
  intros userId t0 t token.
  destruct (bearer_of_generated userId t0) as (Hp & Hi & Hne).
  split; [|split; [|split]].
  - split; [apply verify_fresh | apply protect_fresh_token].
  - intros [_ Hlive].
    split; [now apply verify_within_lifetime | now apply protect_live_token].
  - intros Hlate.
    assert (Hdead : verify (Some token) JWT_SECRET t = Thrown TokenExpiredError)
      by (apply verify_after_one_hour; lia).
    split; [exact Hdead|].
    now apply (protect_rejected_token _ token TokenExpiredError).
  - apply verify_generated.
Qed.

(** ** Protected routes *)

Lemma guarded_refusals {S : Type} (rs acc : list response) (s : S)
      (handler : N -> S -> response * S) :
  fold_left
    (fun acc e =>
       match e with
       | Respond r => (fst acc ++ [r], snd acc)
       | Next user =>
           let '(r, s') := handler user (snd acc) in (fst acc ++ [r], s')
       end)
    (map Respond rs) (acc, s) = (acc ++ rs, s).
Proof.
  revert acc. induction rs as [|r rs IH]; intros acc; simpl.
  - now rewrite app_nil_r.
  - rewrite IH. now rewrite <- app_assoc.
Qed.

(** When the gate answers by itself, the handler does not run and the
    state is what it was. *)
Lemma guarded_refused {S : Type} (authorization : option string) (now : N)
      (handler : N -> S -> response * S) (s : S) (rs : list response) :
  protect JWT_SECRET authorization now = map Respond rs ->
  guarded JWT_SECRET authorization now handler s = (rs, s).
Proof.
  intros H. unfold guarded. rewrite H. apply guarded_refusals.
Qed.

(** When the gate calls [next()], the one response is the handler's. *)
Lemma guarded_passed {S : Type} (authorization : option string) (now : N)
      (handler : N -> S -> response * S) (s : S) (user : N) :
  protect JWT_SECRET authorization now = [Next user] ->
  guarded JWT_SECRET authorization now handler s =
  ([fst (handler user s)], snd (handler user s)).
Proof.
  intros H. unfold guarded. rewrite H. simpl.
  now destruct (handler user s).
Qed.

(** The profile route with the token [generateToken] made for a user runs
    [updateUserProfile] for that user. *)
Lemma put_api_auth_profile_authenticated (user t0 : N) (body : Profile.body)
      (entropy : N) (d : Database) :
  put_api_auth_profile JWT_SECRET
    (Some ("Bearer " ++ generateToken JWT_SECRET user t0)%string)
    body entropy t0 d =
  ([fst (updateUserProfile JWT_SECRET d user body entropy t0)],
   snd (updateUserProfile JWT_SECRET d user body entropy t0)).
Proof.
  unfold put_api_auth_profile.
  apply (guarded_passed _ t0 (fun u d => updateUserProfile JWT_SECRET d u body entropy t0)).
  apply protect_fresh_token.
Qed.

(** Without a header the profile route answers 401 and stores nothing. *)
Lemma put_api_auth_profile_anonymous (body : Profile.body) (entropy now : N)
      (d : Database) :
  put_api_auth_profile JWT_SECRET None body entropy now d =
  ([mkResponse 401 (Message "Not authorized, no token")], d).
Proof.
  unfold put_api_auth_profile.
  now apply (guarded_refused None now _ d [mkResponse 401 (Message "Not authorized, no token")]).
Qed.

(** The payment route with the bare prefix: two answers, and the payment
    handler does not run. *)
Lemma post_api_payment_bare_bearer (body : Payment.body) (now later : N)
      (w : World) :
  post_api_payment JWT_SECRET (Some "Bearer") body now later w =
  ([mkResponse 401 (Message "Not authorized, token failed");
    mkResponse 401 (Message "Not authorized, no token")], w).
Proof.
  unfold post_api_payment. apply guarded_refused.
  rewrite (protect_prefix_only "Bearer" now); reflexivity.
Qed.

End Gate.

(* ================================================================== *)
(** * The Password Hasher *)
(* ================================================================== *)

Lemma same_text_refl (p : pwd) : same_text p p = true.
Proof. apply String.eqb_refl. Qed.

Lemma compare_hash (p q : string) (st : salt) :
  compare q (hash (Plain p) st) = String.eqb q p.
Proof. reflexivity. Qed.

Lemma pre_save_modified_password (entropy : N) (this : User) :
  password (pre_save true entropy this) =
  hash (password this) (genSalt 10 entropy).
Proof. reflexivity. Qed.

(** C7. For every plaintext, whatever salt the hook draws, comparing the
    plaintext with its own digest gives true, and comparing any other
    plaintext with that digest gives false; two different draws give two
    different digests of the same plaintext, and both still verify. *)
Theorem hash_then_compare :
  forall (plaintext wrong : string) (entropy entropy' : N) (this : User),
    password this = Plain plaintext ->
    let digest := password (pre_save true entropy this) in
    let digest' := password (pre_save true entropy' this) in
    compare plaintext digest = true /\
    (wrong <> plaintext -> compare wrong digest = false) /\
    (entropy <> entropy' ->
     digest <> digest' /\ compare plaintext digest' = true).
Proof.
  intros plaintext wrong entropy entropy' this Hpw digest digest'.
  subst digest digest'. rewrite !pre_save_modified_password, Hpw.
  rewrite !compare_hash. repeat split.
  - apply String.eqb_refl.
  - intros Hw. now apply String.eqb_neq.
  - intros E. injection E as E. contradiction.
  - apply String.eqb_refl.
Qed.

(* ================================================================== *)
(** * The Credential Store *)
(* ================================================================== *)

Lemma find_some_in {A : Type} (p : A -> bool) (l : list A) (x : A) :
  In x l -> p x = true -> exists y, find p l = Some y.
Proof.
  intros Hin Hp.
  destruct (find p l) as [y|] eqn:E; [now exists y|].
  now rewrite (find_none _ _ E x Hin) in Hp.
Qed.

Lemma find_app_last {A : Type} (p : A -> bool) (l : list A) (x : A) :
  find p l = None -> p x = true -> find p (l ++ [x]) = Some x.
Proof.
  intros Hl Hx. induction l as [|a l IH]; simpl in *.
  - now rewrite Hx.
  - destruct (p a); [discriminate | auto].
Qed.

Lemma taken_false (path : User -> string) (v : string) (l : list User) :
  taken path v l = false <-> forall u, In u l -> path u <> v.
Proof.
  unfold taken. split.
  - intros H u Hin E.
    assert (Ht : existsb (fun u => String.eqb (path u) v) l = true)
      by (apply existsb_exists; exists u; split; [assumption | now apply String.eqb_eq]).
    congruence.
  - intros H. destruct (existsb _ l) eqn:E; [|reflexivity].
    apply existsb_exists in E as (u & Hin & Hu).
    apply String.eqb_eq in Hu. now destruct (H u Hin).
Qed.

Lemma taken_true (path : User -> string) (v : string) (l : list User) (u : User) :
  In u l -> path u = v -> taken path v l = true.
Proof.
  intros Hin E. apply existsb_exists. exists u.
  split; [assumption | now apply String.eqb_eq].
Qed.

Lemma findOne_email_none (d : Database) (e : string) :
  findOne_email d e = None <-> taken email e (users d) = false.
Proof.
  unfold findOne_email. rewrite taken_false. split.
  - intros H u Hin E. apply (find_none _ _ H) in Hin.
    apply String.eqb_neq in Hin. contradiction.
  - intros H. destruct (find _ (users d)) as [u|] eqn:E; [|reflexivity].
    apply find_some in E as [Hin Hu]. apply String.eqb_eq in Hu.
    now destruct (H u Hin).
Qed.

Lemma findById_id (d : Database) (id : N) (u : User) :
  findById d id = Some u -> _id u = id /\ In u (users d).
Proof.
  intros H. apply find_some in H as [Hin Hid].
  apply N.eqb_eq in Hid. now split.
Qed.

Lemma validate_ok (this : User) :
  validate this = Ok tt <->
  username this <> EmptyString /\ email this <> EmptyString /\
  is_empty (password this) = false.
Proof.
  unfold validate, missing.
  destruct (String.eqb_spec (username this) "") as [Hu|Hu];
    destruct (String.eqb_spec (email this) "") as [He|He];
    destruct (is_empty (password this)); simpl;
    split; try discriminate; try (intros (? & ? & ?); congruence);
    intros _; repeat split; assumption.
Qed.

Lemma unique_ok (this : User) (l : list User) :
  unique this l = Ok tt <->
  taken username (username this) l = false /\ taken email (email this) l = false.
Proof.
  unfold unique.
  destruct (taken username _ l), (taken email _ l); simpl;
    split; try discriminate; try (intros [? ?]; discriminate); auto.
Qed.

Lemma pre_save_frame (b : bool) (entropy : N) (this : User) :
  _id (pre_save b entropy this) = _id this /\
  username (pre_save b entropy this) = username this /\
  email (pre_save b entropy this) = email this /\
  firstName (pre_save b entropy this) = firstName this /\
  lastName (pre_save b entropy this) = lastName this /\
  phoneNumber (pre_save b entropy this) = phoneNumber this.
Proof. destruct b; repeat split. Qed.

Lemma password_pre_save (b : bool) (entropy : N) (this : User) :
  password (pre_save b entropy this) =
  if b then hash (password this) (genSalt 10 entropy) else password this.
Proof. now destruct b. Qed.

(** What [User.create] did when it returned. *)
Lemma create_ok (d : Database) (u e p : string) (entropy : N)
      (user : User) (d' : Database) :
  create d u e p entropy = Ok (user, d') ->
  user = mkUser (next_id d) u e (hash (Plain p) (genSalt 10 entropy)) None None None /\
  d' = mkDatabase (users d ++ [user]) (N.succ (next_id d)) /\
  (u <> EmptyString /\ e <> EmptyString /\ p <> EmptyString) /\
  taken username u (users d) = false /\ taken email e (users d) = false.
Proof.
  unfold create, bind.
  destruct (validate _) as [[]|err] eqn:Hv; [|discriminate].
  destruct (unique _ _) as [[]|err] eqn:Hu; [|discriminate].
  intros H. injection H as <- <-.
  apply validate_ok in Hv as (Hu1 & He1 & Hp1). simpl in *.
  apply unique_ok in Hu as [Hn Hm]. simpl in *.
  repeat split; auto. now apply String.eqb_neq.
Qed.

(** [User.create] returns when the strings are filled in and free. *)
Lemma create_succeeds (d : Database) (u e p : string) (entropy : N) :
  u <> EmptyString -> e <> EmptyString -> p <> EmptyString ->
  taken username u (users d) = false -> taken email e (users d) = false ->
  let user := mkUser (next_id d) u e (hash (Plain p) (genSalt 10 entropy))
                     None None None in
  create d u e p entropy =
  Ok (user, mkDatabase (users d ++ [user]) (N.succ (next_id d))).
Proof.
  intros Hu He Hp Hn Hm user. unfold create, bind.
  assert (Hv : validate (mkUser (next_id d) u e (Plain p) None None None) = Ok tt).
  { apply validate_ok. simpl. repeat split; auto. now apply String.eqb_neq. }
  rewrite Hv.
  assert (Hq : unique (pre_save true entropy
                         (mkUser (next_id d) u e (Plain p) None None None))
                      (users d) = Ok tt)
    by (apply unique_ok; simpl; auto).
  now rewrite Hq.
Qed.

(** [User.create] throws [DuplicateKey] on a taken username. *)
Lemma create_duplicate_username (d : Database) (u e p : string) (entropy : N) :
  u <> EmptyString -> e <> EmptyString -> p <> EmptyString ->
  taken username u (users d) = true ->
  create d u e p entropy = Throw DuplicateKey.
Proof.
  intros Hu He Hp Hn. unfold create, bind.
  assert (Hv : validate (mkUser (next_id d) u e (Plain p) None None None) = Ok tt).
  { apply validate_ok. simpl. repeat split; auto. now apply String.eqb_neq. }
  rewrite Hv. unfold unique. simpl. now rewrite Hn.
Qed.

(** [User.create] throws a validation error when a required string is
    empty, whatever the unique indexes would say. *)
Lemma create_empty_field (d : Database) (u e p : string) (entropy : N) :
  u = EmptyString \/ e = EmptyString \/ p = EmptyString ->
  exists paths,
    paths <> [] /\ create d u e p entropy = Throw (ValidationError paths).
Proof.
  intros Hempty. unfold create, bind, validate, missing.
  cbn [username email password is_empty].
  destruct (String.eqb_spec u "") as [Hu|Hu];
    destruct (String.eqb_spec e "") as [He|He];
    destruct (String.eqb_spec p "") as [Hp|Hp];
    cbn [app];
    try (exfalso; destruct Hempty as [H|[H|H]]; contradiction);
    eexists; (split; [|reflexivity]); discriminate.
Qed.

(** [User.create] never returns when the username is taken. *)
Lemma create_taken_username_throws (d : Database) (u e p : string) (entropy : N) :
  taken username u (users d) = true ->
  exists err, create d u e p entropy = Throw err.
Proof.
  intros Hn.
  destruct (create d u e p entropy) as [[user d']|err] eqn:E; [|now exists err].
  apply create_ok in E as (_ & _ & _ & Hfree & _). congruence.
Qed.

(** What [save] did when it returned. *)
Lemma save_ok (d : Database) (loaded this : User) (entropy : N)
      (saved : User) (d' : Database) :
  save d loaded this entropy = Ok (saved, d') ->
  saved = pre_save (negb (same_text (password this) (password loaded))) entropy this /\
  d' = mkDatabase (replace saved (users d)) (next_id d) /\
  unique saved (others saved (users d)) = Ok tt.
Proof.
  unfold save, bind.
  destruct (validate _) as [[]|err]; [|discriminate].
  destruct (unique _ _) as [[]|err] eqn:Hu; [|discriminate].
  intros H. injection H as <- <-. auto.
Qed.

Lemma find_replace (this : User) (l : list User) (id : N) (u : User) :
  find (fun v => N.eqb (_id v) id) l = Some u -> _id this = id ->
  find (fun v => N.eqb (_id v) id) (replace this l) = Some this.
Proof.
  intros Hfind Hid. induction l as [|a l IH]; simpl in *; [discriminate|].
  rewrite Hid. destruct (N.eqb (_id a) id) eqn:Ha.
  - now rewrite Hid, N.eqb_refl.
  - rewrite Ha. auto.
Qed.

(** After a save that passed the unique indexes, the email of the saved
    document finds that document. *)
Lemma find_email_replace (this : User) (l : list User) :
  taken email (email this) (others this l) = false ->
  (exists u, In u l /\ _id u = _id this) ->
  find (fun v => String.eqb (email v) (email this)) (replace this l) = Some this.
Proof.
  induction l as [|a l IH]; simpl.
  - intros _ (u & [] & _).
  - intros Htaken (u & Hin & Hid).
    destruct (N.eqb (_id a) (_id this)) eqn:Ha; simpl in Htaken.
    + now rewrite String.eqb_refl.
    + apply orb_false_iff in Htaken as [Hmail Hrest]. rewrite Hmail.
      apply IH; [assumption|].
      destruct Hin as [->|Hin]; [|now exists u].
      apply N.eqb_neq in Ha. contradiction.
Qed.

(* ================================================================== *)
(** * Account handlers *)
(* ================================================================== *)

Section Accounts.

Context {J : JsonWebToken}.
Variable JWT_SECRET : string.

(** ** Login *)

Lemma login_unknown_email (d : Database) (body : Login.body) (now : N) :
  findOne_email d (Login.email body) = None ->
  loginUser JWT_SECRET d body now = invalid_credentials.
Proof. intros H. unfold loginUser. now rewrite H. Qed.

(** The email of a stored user with a password that is a string: the
    answer depends on [bcrypt.compare]. *)
Lemma login_known_email (d : Database) (mail pw : string) (now : N) (user : User) :
  findOne_email d mail = Some user ->
  loginUser JWT_SECRET d (Login.mk mail (JStr pw)) now =
  if compare pw (password user)
  then mkResponse 200
         (Account (_id user) (username user) (email user)
                  (generateToken JWT_SECRET (_id user) now))
  else invalid_credentials.
Proof.
  intros H. unfold loginUser. cbn [Login.email Login.password]. rewrite H.
  cbn [compare_js]. now destruct (compare pw (password user)).
Qed.

(** The email of a stored user with a password that is missing or is
    not a string: [bcrypt.compare] throws, and the answer is 500. *)
Lemma login_known_email_no_string (d : Database) (mail : string) (v : jsval)
      (now : N) (user : User) :
  findOne_email d mail = Some user ->
  (forall s, v <> JStr s) ->
  loginUser JWT_SECRET d (Login.mk mail v) now =
  mkResponse 500 (ErrorMessage IllegalArguments).
Proof.
  intros H Hv. unfold loginUser. cbn [Login.email Login.password]. rewrite H.
  destruct v; try reflexivity. now destruct (Hv s).
Qed.

(** C4, where the code keeps it and where it departs from it.  With a
    password that is a string, a wrong password for a stored email and
    an email no stored user has get the same response, 401 "Invalid
    email or password".  With a password that is missing or is not a
    string, [bcrypt.compare] is called for the stored email only and
    throws: the stored email gets 500, the unknown one 401, and the
    response tells whether the email exists. *)
Theorem login_failure_reveals_email_without_string_password :
  forall (d : Database) (user : User) (known unknown : string) (now now' : N),
    findOne_email d known = Some user ->
    findOne_email d unknown = None ->
    (forall wrong any : string,
        compare wrong (password user) = false ->
        loginUser JWT_SECRET d (Login.mk known (JStr wrong)) now =
        mkResponse 401 (Message "Invalid email or password") /\
        loginUser JWT_SECRET d (Login.mk unknown (JStr any)) now' =
        loginUser JWT_SECRET d (Login.mk known (JStr wrong)) now)
    /\
    (forall v : jsval,
        (forall s, v <> JStr s) ->
        loginUser JWT_SECRET d (Login.mk known v) now =
        mkResponse 500 (ErrorMessage IllegalArguments) /\
        loginUser JWT_SECRET d (Login.mk unknown v) now' =
        mkResponse 401 (Message "Invalid email or password") /\
        loginUser JWT_SECRET d (Login.mk known v) now <>
        loginUser JWT_SECRET d (Login.mk unknown v) now').
Proof.
  intros d user known unknown now now' Hknown Hunknown. split.
  - intros wrong any Hwrong.
    rewrite (login_known_email d known wrong now user Hknown), Hwrong.
    split; [reflexivity|].
    now apply login_unknown_email.
  - intros v Hv.
    rewrite (login_known_email_no_string d known v now user Hknown Hv).
    rewrite (login_unknown_email d (Login.mk unknown v) now' Hunknown).
    repeat split. discriminate.
Qed.

(** ** Registration *)

Lemma unused_taken (d : Database) (b : Signup.body) :
  unused d b <->
  taken username (Signup.username b) (users d) = false /\
  taken email (Signup.email b) (users d) = false.
Proof.
  rewrite !taken_false. unfold unused. split.
  - intros H. split; intros u Hin; now destruct (H u Hin).
  - intros [Hn Hm] v Hin. split; auto.
Qed.

Lemma register_known_email (d : Database) (b : Signup.body) (entropy now : N)
      (u : User) :
  In u (users d) -> email u = Signup.email b ->
  registerUser JWT_SECRET d b entropy now =
  (mkResponse 400 (Message "User already exists"), d).
Proof.
  intros Hin Hmail. unfold registerUser, findOne_email.
  destruct (find_some_in (fun v => String.eqb (email v) (Signup.email b))
                         (users d) u Hin) as [v Hv].
  - now apply String.eqb_eq.
  - now rewrite Hv.
Qed.

Lemma register_succeeds (d : Database) (b : Signup.body) (entropy now : N) :
  filled b -> unused d b ->
  let user := mkUser (next_id d) (Signup.username b) (Signup.email b)
                     (hash (Plain (Signup.password b)) (genSalt 10 entropy))
                     None None None in
  registerUser JWT_SECRET d b entropy now =
  (mkResponse 201
     (Account (next_id d) (Signup.username b) (Signup.email b)
              (generateToken JWT_SECRET (next_id d) now)),
   mkDatabase (users d ++ [user]) (N.succ (next_id d))).
Proof.
  intros (Hu & He & Hp) Hfree user.
  apply unused_taken in Hfree as [Hn Hm].
  unfold registerUser.
  rewrite (proj2 (findOne_email_none d _) Hm).
  now rewrite (create_succeeds d _ _ _ entropy Hu He Hp Hn Hm).
Qed.

Lemma register_taken_username (d : Database) (b : Signup.body) (entropy now : N)
      (u : User) :
  In u (users d) -> username u = Signup.username b ->
  (forall v, In v (users d) -> email v <> Signup.email b) ->
  status (fst (registerUser JWT_SECRET d b entropy now)) = 500 /\
  snd (registerUser JWT_SECRET d b entropy now) = d /\
  (filled b ->
   payload (fst (registerUser JWT_SECRET d b entropy now)) =
   ErrorMessage DuplicateKey) /\
  (Signup.username b = EmptyString \/ Signup.email b = EmptyString \/
   Signup.password b = EmptyString ->
   exists paths,
     paths <> [] /\
     payload (fst (registerUser JWT_SECRET d b entropy now)) =
     ErrorMessage (ValidationError paths)).
Proof.
  intros Hin Hname Hmail.
  assert (Htaken : taken username (Signup.username b) (users d) = true)
    by exact (taken_true username _ _ u Hin Hname).
  unfold registerUser.
  rewrite (proj2 (findOne_email_none d _) (proj2 (taken_false email _ _) Hmail)).
  destruct (create_taken_username_throws d (Signup.username b) (Signup.email b)
              (Signup.password b) entropy Htaken) as [err Herr].
  rewrite Herr. simpl. repeat split.
  - intros (Hu & He & Hp).
    rewrite (create_duplicate_username d _ _ _ entropy Hu He Hp Htaken) in Herr.
    now injection Herr as <-.
  - intros Hempty.
    destruct (create_empty_field d _ _ _ entropy Hempty) as (paths & Hne & Hc).
    rewrite Hc in Herr. injection Herr as <-. now exists paths.
Qed.

Lemma unused_after_register (d : Database) (b b2 : Signup.body) (user : User) :
  unused d b2 ->
  email user = Signup.email b -> username user = Signup.username b ->
  Signup.email b <> Signup.email b2 ->
  Signup.username b <> Signup.username b2 ->
  unused (mkDatabase (users d ++ [user]) (N.succ (next_id d))) b2.
Proof.
  intros Hfree Hmail Hname He Hu v Hin. simpl in Hin.
  apply in_app_or in Hin as [Hin|[<-|[]]]; [now apply Hfree|].
  rewrite Hmail, Hname. now split.
Qed.

(** C1, as the code has it, for signups whose three fields are strings.
    A signup whose email is that of a stored user gets 400 "User already
    exists" and stores nothing.  A signup whose username is that of a
    stored user, the email being new, stores nothing either, but the
    failure of the store's create reaches the catch clause and the
    status is 500: the error is DuplicateKey when the three fields are
    filled in, and the validation error when one is empty.  Two signups
    with filled-in fields, with different emails and different
    usernames that no stored user has, both get 201; both users are
    stored under different identifiers and each response carries a
    token that verifies, at the time of the response, to the new
    user's identifier. *)
Theorem register_conflict_and_success :
  forall (d : Database) (b : Signup.body) (entropy now : N),
    (forall u, In u (users d) -> email u = Signup.email b ->
               registerUser JWT_SECRET d b entropy now =
               (mkResponse 400 (Message "User already exists"), d))
    /\
    (forall u, In u (users d) -> username u = Signup.username b ->
               (forall v, In v (users d) -> email v <> Signup.email b) ->
               status (fst (registerUser JWT_SECRET d b entropy now)) = 500 /\
               snd (registerUser JWT_SECRET d b entropy now) = d /\
               (filled b ->
                payload (fst (registerUser JWT_SECRET d b entropy now)) =
                ErrorMessage DuplicateKey) /\
               (Signup.username b = EmptyString \/
                Signup.email b = EmptyString \/
                Signup.password b = EmptyString ->
                exists paths,
                  paths <> [] /\
                  payload (fst (registerUser JWT_SECRET d b entropy now)) =
                  ErrorMessage (ValidationError paths)))
    /\
    (forall (b2 : Signup.body) (entropy2 now2 : N),
        filled b -> filled b2 -> unused d b -> unused d b2 ->
        Signup.email b <> Signup.email b2 ->
        Signup.username b <> Signup.username b2 ->
        exists (u1 u2 : User) (d1 d2 : Database),
          registerUser JWT_SECRET d b entropy now =
          (mkResponse 201
             (Account (_id u1) (Signup.username b) (Signup.email b)
                      (generateToken JWT_SECRET (_id u1) now)), d1) /\
          registerUser JWT_SECRET d1 b2 entropy2 now2 =
          (mkResponse 201
             (Account (_id u2) (Signup.username b2) (Signup.email b2)
                      (generateToken JWT_SECRET (_id u2) now2)), d2) /\
          users d2 = users d ++ [u1; u2] /\
          _id u1 <> _id u2 /\
          verify (Some (generateToken JWT_SECRET (_id u1) now)) JWT_SECRET now =
          Decoded (_id u1) /\
          verify (Some (generateToken JWT_SECRET (_id u2) now2)) JWT_SECRET now2 =
          Decoded (_id u2)).
Proof.
  intros d b entropy now. split; [|split].
  - intros u. apply register_known_email.
  - intros u. apply register_taken_username.
  - intros b2 entropy2 now2 Hb Hb2 Hfree Hfree2 He Hu.
    pose (u1 := mkUser (next_id d) (Signup.username b) (Signup.email b)
                       (hash (Plain (Signup.password b)) (genSalt 10 entropy))
                       None None None).
    pose (d1 := mkDatabase (users d ++ [u1]) (N.succ (next_id d))).
    pose (u2 := mkUser (next_id d1) (Signup.username b2) (Signup.email b2)
                       (hash (Plain (Signup.password b2)) (genSalt 10 entropy2))
                       None None None).
    exists u1, u2, d1, (mkDatabase (users d1 ++ [u2]) (N.succ (next_id d1))).
    assert (Hfree1 : unused d1 b2)
      by (apply (unused_after_register d b b2 u1); auto).
    split; [exact (register_succeeds d b entropy now Hb Hfree)|].
    split; [exact (register_succeeds d1 b2 entropy2 now2 Hb2 Hfree1)|].
    split; [simpl; now rewrite <- app_assoc|].
    split; [simpl; lia|].
    split; apply verify_fresh.
Qed.

End Accounts.

(* ================================================================== *)
(** * Profile update *)
(* ================================================================== *)

Section Profiles.

Context {J : JsonWebToken}.
Variable JWT_SECRET : string.

Lemma update_unknown_user (d : Database) (id : N) (body : Profile.body)
      (entropy now : N) :
  findById d id = None ->
  updateUserProfile JWT_SECRET d id body entropy now =
  (mkResponse 404 (Message "User not found"), d).
Proof. intros H. unfold updateUserProfile. now rewrite H. Qed.

Lemma update_saved (d : Database) (id : N) (body : Profile.body)
      (entropy now : N) (user saved : User) (d' : Database) :
  findById d id = Some user ->
  save d user (edited user body) entropy = Ok (saved, d') ->
  updateUserProfile JWT_SECRET d id body entropy now =
  (mkResponse 200
     (ProfileOf (_id saved) (username saved) (email saved) (firstName saved)
                (lastName saved) (phoneNumber saved)
                (generateToken JWT_SECRET (_id saved) now)), d') /\
  findById d' id = Some saved /\
  findOne_email d' (email saved) = Some saved /\
  saved = pre_save (negb (same_text (password (edited user body)) (password user)))
                   entropy (edited user body).
Proof.
  intros Hfind Hsave. unfold updateUserProfile. rewrite Hfind.
  rewrite Hsave.
  destruct (save_ok _ _ _ _ _ _ Hsave) as (Hsaved & -> & Huniq).
  destruct (findById_id _ _ _ Hfind) as [Hid Hin].
  assert (Hsid : _id saved = id).
  { rewrite Hsaved.
    now rewrite (proj1 (pre_save_frame _ entropy (edited user body))). }
  repeat split; [| |assumption].
  - unfold findById. simpl. now apply (find_replace saved _ id user).
  - unfold findOne_email. simpl. apply find_email_replace.
    + now apply unique_ok in Huniq.
    + exists user. split; congruence.
Qed.

Lemma update_not_saved (d : Database) (id : N) (body : Profile.body)
      (entropy now : N) (user : User) (err : error) :
  findById d id = Some user ->
  save d user (edited user body) entropy = Throw err ->
  updateUserProfile JWT_SECRET d id body entropy now =
  (mkResponse 500 (ErrorMessage err), d).
Proof.
  intros Hfind Hsave. unfold updateUserProfile. rewrite Hfind.
  now rewrite Hsave.
Qed.

Lemma edited_falsy (user : User) (body : Profile.body) (f : field) :
  truthy (requested f body) = false ->
  stored f (edited user body) = stored f user.
Proof.
  destruct f; simpl; unfold or_string, or_optional, or_password;
    intros ->; reflexivity.
Qed.

Lemma pre_save_edited_falsy (user : User) (body : Profile.body)
      (entropy : N) (f : field) :
  truthy (requested f body) = false ->
  stored f (pre_save (negb (same_text (password (edited user body)) (password user)))
                     entropy (edited user body)) =
  stored f user.
Proof.
  intros Hf. rewrite <- (edited_falsy user body f Hf).
  set (flag := negb _).
  destruct (pre_save_frame flag entropy (edited user body))
    as (_ & Hu & He & Hfn & Hln & Hph).
  destruct f; cbn [stored]; rewrite ?Hu, ?He, ?Hfn, ?Hln, ?Hph;
    try reflexivity.
  assert (Hkept : password (edited user body) = password user)
    by (cbn [requested] in Hf; cbn [edited password]; unfold or_password;
        now rewrite Hf).
  assert (Hflag : flag = false)
    by (subst flag; now rewrite Hkept, same_text_refl).
  now rewrite Hflag.
Qed.

(** A field the request leaves out, or gives a falsy value, keeps its
    stored value, whether the save goes through or not. *)
Lemma update_retains_falsy (d : Database) (id : N) (body : Profile.body)
      (entropy now : N) (user : User) (f : field) :
  findById d id = Some user ->
  truthy (requested f body) = false ->
  exists user',
    findById (snd (updateUserProfile JWT_SECRET d id body entropy now)) id =
    Some user' /\
    stored f user' = stored f user.
Proof.
  intros Hfind Hf.
  destruct (save d user (edited user body) entropy) as [[saved d']|err] eqn:Hsave.
  - destruct (update_saved d id body entropy now user saved d' Hfind Hsave)
      as (-> & Hfound & _ & Hsaved).
    exists saved. split; [assumption|].
    rewrite Hsaved. now apply pre_save_edited_falsy.
  - rewrite (update_not_saved d id body entropy now user err Hfind Hsave).
    now exists user.
Qed.

Lemma edited_omit (user : User) (body : Profile.body) (f : field) :
  truthy (requested f body) = false ->
  edited user (omit f body) = edited user body.
Proof.
  intros Hf. destruct body as [u e fn ln ph pw].
  destruct f; cbn [requested Profile.username Profile.email
                   Profile.firstName Profile.lastName Profile.phoneNumber
                   Profile.password] in Hf;
    unfold edited, omit;
    cbn [requested Profile.username Profile.email
         Profile.firstName Profile.lastName Profile.phoneNumber
         Profile.password];
    unfold or_string, or_optional, or_password; rewrite Hf; reflexivity.
Qed.

(** A falsy value and no value make the same request. *)
Lemma update_falsy_as_omitted (d : Database) (id : N) (body : Profile.body)
      (entropy now : N) (f : field) :
  truthy (requested f body) = false ->
  updateUserProfile JWT_SECRET d id body entropy now =
  updateUserProfile JWT_SECRET d id (omit f body) entropy now.
Proof.
  intros Hf. unfold updateUserProfile.
  destruct (findById d id) as [user|]; [|reflexivity].
  now rewrite (edited_omit user body f Hf).
Qed.

(** C5. In a profile update for a stored user, each of the six fields
    (username, email, firstName, lastName, phoneNumber, password) that
    is absent from the request body has, in the stored user after the
    update, the value it had before. *)
Theorem profile_update_keeps_absent_fields :
  forall (d : Database) (id : N) (body : Profile.body) (entropy now : N)
         (user : User) (f : field),
    findById d id = Some user ->
    requested f body = JUndefined ->
    exists user',
      findById (snd (updateUserProfile JWT_SECRET d id body entropy now)) id =
      Some user' /\
      stored f user' = stored f user.
Proof.
  intros d id body entropy now user f Hfind Habsent.
  apply update_retains_falsy; [assumption|].
  now rewrite Habsent.
Qed.

(** C9. In a profile update, a falsy value (the empty string, 0,
    false, null) for username, email, firstName, lastName, phoneNumber
    or password makes the request behave as the one without that
    field: same response, same database, and the stored user keeps the
    value it had, so an empty string is never persisted. *)
Theorem profile_update_falsy_is_omitted :
  forall (d : Database) (id : N) (body : Profile.body) (entropy now : N)
         (user : User) (f : field),
    findById d id = Some user ->
    truthy (requested f body) = false ->
    updateUserProfile JWT_SECRET d id body entropy now =
    updateUserProfile JWT_SECRET d id (omit f body) entropy now /\
    exists user',
      findById (snd (updateUserProfile JWT_SECRET d id body entropy now)) id =
      Some user' /\
      stored f user' = stored f user.
Proof.
  intros d id body entropy now user f Hfind Hfalsy. split.
  - now apply update_falsy_as_omitted.
  - now apply update_retains_falsy.
Qed.

(** ** Passwords are stored hashed *)

Lemma password_edited (user : User) (body : Profile.body) :
  password (edited user body) =
  or_password (Profile.password body) (password user).
Proof. reflexivity. Qed.

(** The password [save] writes: the digest of the new characters when
    the request gave some that differ from those of the path, and what
    the path had otherwise. *)
Lemma saved_password (user : User) (body : Profile.body) (entropy : N) :
  password (pre_save (negb (same_text (password (edited user body))
                                      (password user)))
                     entropy (edited user body)) =
  if truthy (Profile.password body)
     && negb (String.eqb (js_to_string (Profile.password body))
                         (text (password user)))
  then hash (Plain (js_to_string (Profile.password body))) (genSalt 10 entropy)
  else password user.
Proof.
  rewrite password_pre_save, password_edited. unfold or_password.
  destruct (truthy (Profile.password body)); cbn [andb];
    [|now rewrite same_text_refl].
  destruct (String.eqb _ (text (password user))) eqn:E; cbn [negb].
  - now rewrite same_text_refl.
  - unfold same_text. cbn [text]. now rewrite E.
Qed.

Lemma in_replace (this u : User) (l : list User) :
  In u (replace this l) -> u = this \/ In u l.
Proof.
  unfold replace. intros H. apply in_map_iff in H as (v & Hv & Hin).
  destruct (N.eqb (_id v) (_id this)); subst; auto.
Qed.

Lemma register_hashed (d : Database) (b : Signup.body) (entropy now : N) :
  hashed d -> hashed (snd (registerUser JWT_SECRET d b entropy now)).
Proof.
  intros Hd. unfold registerUser.
  destruct (findOne_email d (Signup.email b)); [assumption|].
  destruct (create d _ _ _ entropy) as [[user d']|err] eqn:Hc; [|assumption].
  apply create_ok in Hc as (-> & -> & _). simpl.
  intros u Hin. apply in_app_or in Hin as [Hin|[<-|[]]]; auto.
Qed.

Lemma update_hashed (d : Database) (id : N) (body : Profile.body)
      (entropy now : N) :
  hashed d -> hashed (snd (updateUserProfile JWT_SECRET d id body entropy now)).
Proof.
  intros Hd.
  destruct (findById d id) as [user|] eqn:Hfind;
    [|now rewrite update_unknown_user].
  destruct (save d user (edited user body) entropy) as [[saved d']|err] eqn:Hsave;
    [|now rewrite (update_not_saved d id body entropy now user err)].
  destruct (update_saved d id body entropy now user saved d' Hfind Hsave)
    as (-> & _ & _ & Hsaved).
  apply save_ok in Hsave as (_ & -> & _). simpl.
  intros u Hin. apply in_replace in Hin as [->|Hin]; [|auto].
  pose proof (Hd user (proj2 (findById_id _ _ _ Hfind))) as Huser.
  rewrite Hsaved, saved_password.
  now destruct (truthy (Profile.password body) && _).
Qed.

(** Invariant: "password field always holds a hash, never plaintext,
    once persisted". *)
Lemma reachable_hashed (d : Database) : reachable JWT_SECRET d -> hashed d.
Proof.
  induction 1 as [|d b entropy now _ IH|d id body entropy now _ IH].
  - intros u [].
  - now apply register_hashed.
  - now apply update_hashed.
Qed.

(** ** The unique indexes hold *)

Lemma NoDup_snoc {A : Type} (l : list A) (x : A) :
  NoDup l -> ~ In x l -> NoDup (l ++ [x]).
Proof.
  induction 1 as [|a l Ha Hl IH]; simpl; intros Hx.
  - constructor; [intros []|constructor].
  - constructor.
    + intros Hin. apply in_app_or in Hin as [Hin|[->|[]]]; [contradiction|].
      apply Hx. now left.
    + apply IH. intros Hin. apply Hx. now right.
Qed.

Lemma taken_not_in (path : User -> string) (v : string) (l : list User) :
  taken path v l = false -> ~ In v (map path l).
Proof.
  intros H Hin. apply in_map_iff in Hin as (u & Hu & Hin).
  exact (proj1 (taken_false path v l) H u Hin Hu).
Qed.

Lemma replace_absent (this : User) (l : list User) :
  ~ In (_id this) (map _id l) -> replace this l = l /\ others this l = l.
Proof.
  induction l as [|a l IH]; simpl; [auto|].
  intros H. destruct (N.eqb_spec (_id a) (_id this)) as [E|E].
  - destruct H. now left.
  - simpl. destruct IH as [-> ->]; auto.
Qed.

Lemma map_id_replace (this : User) (l : list User) :
  map _id (replace this l) = map _id l.
Proof.
  induction l as [|a l IH]; simpl; [reflexivity|].
  rewrite IH. destruct (N.eqb_spec (_id a) (_id this)) as [E|E]; congruence.
Qed.

(** Replacing a document keeps a unique index when the new value is
    not taken by another document. *)
Lemma NoDup_replace (path : User -> string) (this : User) (l : list User) :
  NoDup (map _id l) -> NoDup (map path l) ->
  taken path (path this) (others this l) = false ->
  NoDup (map path (replace this l)).
Proof.
  induction l as [|a l IH]; simpl; intros Hid Hpath Htaken; [constructor|].
  inversion Hid as [|? ? Hida Hidl]; subst.
  inversion Hpath as [|? ? Hpa Hpl]; subst.
  destruct (N.eqb_spec (_id a) (_id this)) as [E|E]; simpl in Htaken.
  - rewrite E in Hida. destruct (replace_absent this l Hida) as [Hr Ho].
    rewrite Hr. rewrite Ho in Htaken.
    constructor; [now apply taken_not_in | assumption].
  - apply orb_false_iff in Htaken as [Ha Hrest].
    apply String.eqb_neq in Ha.
    constructor; [|now apply IH].
    intros Hin. apply in_map_iff in Hin as (u & Hu & Hin).
    apply in_replace in Hin as [->|Hin]; [congruence|].
    apply Hpa. apply in_map_iff. now exists u.
Qed.

Lemma register_indexed (d : Database) (b : Signup.body) (entropy now : N) :
  indexed d -> indexed (snd (registerUser JWT_SECRET d b entropy now)).
Proof.
  intros (Hid & Hmail & Hname & Hbound). unfold registerUser.
  destruct (findOne_email d (Signup.email b)); [now repeat split|].
  destruct (create d _ _ _ entropy) as [[user d']|err] eqn:Hc;
    [|now repeat split].
  apply create_ok in Hc as (-> & -> & _ & Hn & Hm). simpl.
  unfold indexed. simpl. rewrite !map_app. simpl. repeat split.
  - apply NoDup_snoc; [assumption|].
    intros Hin. apply in_map_iff in Hin as (u & Hu & Hin).
    specialize (Hbound u Hin). lia.
  - apply NoDup_snoc; [assumption | now apply taken_not_in].
  - apply NoDup_snoc; [assumption | now apply taken_not_in].
  - intros u Hin. apply in_app_or in Hin as [Hin|[<-|[]]].
    + specialize (Hbound u Hin). lia.
    + simpl. lia.
Qed.

Lemma update_indexed (d : Database) (id : N) (body : Profile.body)
      (entropy now : N) :
  indexed d -> indexed (snd (updateUserProfile JWT_SECRET d id body entropy now)).
Proof.
  intros Hd.
  destruct (findById d id) as [user|] eqn:Hfind;
    [|now rewrite update_unknown_user].
  destruct (save d user (edited user body) entropy) as [[saved d']|err] eqn:Hsave;
    [|now rewrite (update_not_saved d id body entropy now user err)].
  destruct (update_saved d id body entropy now user saved d' Hfind Hsave)
    as (-> & _ & _ & Hsaved).
  apply save_ok in Hsave as (_ & -> & Huniq).
  apply unique_ok in Huniq as [Hn Hm].
  destruct Hd as (Hid & Hmail & Hname & Hbound).
  destruct (findById_id _ _ _ Hfind) as [Huid Huin].
  unfold indexed. simpl. rewrite map_id_replace. repeat split.
  - assumption.
  - now apply NoDup_replace.
  - now apply NoDup_replace.
  - intros u Hin. apply in_replace in Hin as [->|Hin]; [|auto].
    rewrite Hsaved, (proj1 (pre_save_frame _ entropy (edited user body))).
    exact (Hbound user Huin).
Qed.

(** Invariant: "email and username are unique across all users". *)
Lemma reachable_indexed (d : Database) : reachable JWT_SECRET d -> indexed d.
Proof.
  induction 1 as [|d b entropy now _ IH|d id body entropy now _ IH].
  - repeat split; try constructor. intros u [].
  - now apply register_indexed.
  - now apply update_indexed.
Qed.




End Profiles.

(* ================================================================== *)
(** * The Payment Stub *)
(* ================================================================== *)

Lemma processPayment_test (body : Payment.body) :
  negb (truthy_any (Payment.cardNumber body))
  || negb (truthy_any (Payment.expiryDate body))
  || negb (truthy_any (Payment.cvv body))
  || negb (truthy_any (Payment.cardHolderName body))
  || negb (truthy_any (Payment.amount body)) = negb (all_truthy body).
Proof. unfold all_truthy. now rewrite !negb_andb. Qed.

Lemma payment_refused (w : World) (body : Payment.body) (now : N) :
  all_truthy body = false ->
  processPayment w body now =
  (mkResponse 400 (Message "Missing payment details."), w).
Proof.
  intros H. unfold processPayment. now rewrite processPayment_test, H.
Qed.

(** The five strings of a body whose fields can all be printed. *)
Lemma printable_strings (body : Payment.body) :
  printable body = true ->
  exists name amt number expiry code,
    interpolate (Payment.cardHolderName body) = Some name /\
    interpolate (Payment.amount body) = Some amt /\
    interpolate (Payment.cardNumber body) = Some number /\
    interpolate (Payment.expiryDate body) = Some expiry /\
    interpolate (Payment.cvv body) = Some code.
Proof.
  unfold printable.
  destruct (interpolate (Payment.cardHolderName body)) as [name|]; [|discriminate].
  destruct (interpolate (Payment.amount body)) as [amt|]; [|discriminate].
  destruct (interpolate (Payment.cardNumber body)) as [number|]; [|discriminate].
  destruct (interpolate (Payment.expiryDate body)) as [expiry|]; [|discriminate].
  destruct (interpolate (Payment.cvv body)) as [code|]; [|discriminate].
  intros _. now exists name, amt, number, expiry, code.
Qed.

Lemma payment_accepted (w : World) (body : Payment.body) (now : N)
      (name amt number expiry code : string) :
  all_truthy body = true ->
  interpolate (Payment.cardHolderName body) = Some name ->
  interpolate (Payment.amount body) = Some amt ->
  interpolate (Payment.cardNumber body) = Some number ->
  interpolate (Payment.expiryDate body) = Some expiry ->
  interpolate (Payment.cvv body) = Some code ->
  processPayment w body now =
  (mkResponse 200
     (Receipt "Payment processed successfully!" ("TXN_" ++ decimal now)
              (Payment.amount body) "completed"),
   mkWorld (db w)
     (console w ++
      [Log ("Processing payment for " ++ name ++ " with amount " ++ amt);
       Log ("Card Number: " ++ number ++ ", Expiry: " ++ expiry
            ++ ", CVV: " ++ code)])).
Proof.
  intros H Hname Hamt Hnumber Hexpiry Hcode.
  unfold processPayment, template2, template3.
  rewrite processPayment_test, H, Hname, Hamt, Hnumber, Hexpiry, Hcode.
  cbn [negb db console]. now rewrite <- app_assoc.
Qed.

(** A truthy field that cannot be converted to a string makes a template
    literal throw: the [catch] answers 500. *)
Lemma payment_throws (w : World) (body : Payment.body) (now : N) :
  all_truthy body = true -> printable body = false ->
  fst (processPayment w body now) =
  mkResponse 500 (Message "Payment failed. Please try again.") /\
  db (snd (processPayment w body now)) = db w.
Proof.
  intros H Hp. unfold processPayment, template2, template3, printable in *.
  rewrite processPayment_test, H. cbn [negb].
  destruct (interpolate (Payment.cardHolderName body)); [|now split].
  destruct (interpolate (Payment.amount body)); [|now split].
  destruct (interpolate (Payment.cardNumber body)); [|now split].
  destruct (interpolate (Payment.expiryDate body)); [|now split].
  destruct (interpolate (Payment.cvv body)); [discriminate | now split].
Qed.

Lemma payment_keeps_database (w : World) (body : Payment.body) (now : N) :
  db (snd (processPayment w body now)) = db w.
Proof.
  destruct (all_truthy body) eqn:H; [|now rewrite payment_refused].
  destruct (printable body) eqn:Hp; [|now apply payment_throws].
  destruct (printable_strings body Hp)
    as (name & amt & number & expiry & code & H1 & H2 & H3 & H4 & H5).
  now rewrite (payment_accepted w body now _ _ _ _ _ H H1 H2 H3 H4 H5).
Qed.

(** The id is the clock reading and nothing else: two receipts made in
    the same millisecond carry the same id. *)
Lemma payment_same_clock_same_id (w w' : World) (body body' : Payment.body)
      (now : N) :
  all_truthy body = true -> printable body = true ->
  all_truthy body' = true -> printable body' = true ->
  transactionId_of (fst (processPayment w body now)) =
  transactionId_of (fst (processPayment w' body' now)).
Proof.
  intros H Hp H' Hp'.
  destruct (printable_strings body Hp)
    as (name & amt & number & expiry & code & H1 & H2 & H3 & H4 & H5).
  destruct (printable_strings body' Hp')
    as (name' & amt' & number' & expiry' & code' & H1' & H2' & H3' & H4' & H5').
  rewrite (payment_accepted w body now _ _ _ _ _ H H1 H2 H3 H4 H5).
  now rewrite (payment_accepted w' body' now _ _ _ _ _ H' H1' H2' H3' H4' H5').
Qed.

(** C8, as the code has it.  A payment request in which one of
    cardNumber, expiryDate, cvv, cardHolderName, amount is absent or
    falsy (empty string, 0, false, null) gets 400 "Missing payment
    details." with no side effect.  A request in which all five are
    truthy and can be put in the two template literals gets 200, the
    amount echoed, status "completed" and the transaction id TXN_
    followed by the clock reading; two such calls that read different
    clock values, one millisecond apart for instance, get different ids;
    the call logs the holder, the amount, the card number, the expiry
    date and the CVV on the console.  A request in which all five are
    truthy and one cannot be converted to a string gets 500 "Payment
    failed. Please try again.".  No call writes to the database: card
    data is never persisted. *)
Theorem payment_validation_and_receipt :
  forall (w : World) (body : Payment.body) (now : N),
    (all_truthy body = false ->
     processPayment w body now =
     (mkResponse 400 (Message "Missing payment details."), w))
    /\
    (all_truthy body = true -> printable body = true ->
     exists name amt number expiry code,
       interpolate (Payment.cardHolderName body) = Some name /\
       interpolate (Payment.amount body) = Some amt /\
       interpolate (Payment.cardNumber body) = Some number /\
       interpolate (Payment.expiryDate body) = Some expiry /\
       interpolate (Payment.cvv body) = Some code /\
       processPayment w body now =
       (mkResponse 200
          (Receipt "Payment processed successfully!" ("TXN_" ++ decimal now)
                   (Payment.amount body) "completed"),
        mkWorld (db w)
          (console w ++
           [Log ("Processing payment for " ++ name ++ " with amount " ++ amt);
            Log ("Card Number: " ++ number ++ ", Expiry: " ++ expiry
                 ++ ", CVV: " ++ code)])) /\
       forall (w' : World) (body' : Payment.body) (now' : N),
         all_truthy body' = true -> printable body' = true -> now <> now' ->
         transactionId_of (fst (processPayment w body now)) <>
         transactionId_of (fst (processPayment w' body' now')))
    /\
    (all_truthy body = true -> printable body = false ->
     fst (processPayment w body now) =
     mkResponse 500 (Message "Payment failed. Please try again."))
    /\
    db (snd (processPayment w body now)) = db w.
Proof.
  intros w body now. split; [|split; [|split]].
  - apply payment_refused.
  - intros H Hp.
    destruct (printable_strings body Hp)
      as (name & amt & number & expiry & code & H1 & H2 & H3 & H4 & H5).
    exists name, amt, number, expiry, code.
    pose proof (payment_accepted w body now _ _ _ _ _ H H1 H2 H3 H4 H5) as E.
    repeat (split; [assumption|]).
    intros w' body' now' H' Hp' Hclock.
    destruct (printable_strings body' Hp')
      as (name' & amt' & number' & expiry' & code' & H1' & H2' & H3' & H4' & H5').
    rewrite E, (payment_accepted w' body' now' _ _ _ _ _ H' H1' H2' H3' H4' H5').
    cbn. intros Eid. injection Eid as Eid.
    now apply decimal_inj in Eid.
  - intros H Hp. now apply payment_throws.
  - apply payment_keeps_database.
Qed.

(* ================================================================== *)
(** * The properties on a run of the server *)
(* ================================================================== *)

Module Scenario.

Definition secret : string := "s3cret".

Definition alice : Signup.body :=
  Signup.mk "alice" "alice@example.com" "hunter2".

Definition bob : Signup.body :=
  Signup.mk "bob" "bob@example.com" "tr0ub4dor".

(** The database after alice signed up. *)
Definition with_alice : Database :=
  snd (registerUser (J := MockJwt.mock) secret empty alice 1 0).

Definition alice_stored : User :=
  mkUser 0 "alice" "alice@example.com"
         (Digest (mkSalt 10 1) (Plain "hunter2")) None None None.

(** A second signup that takes alice's username with a new email. *)
Definition alice_again : Signup.body :=
  Signup.mk "alice" "other@example.com" "hunter2".

(** A signup without a password. *)
Definition carol_no_password : Signup.body :=
  Signup.mk "carol" "carol@example.com" "".

(** A profile update that gives a first name and an empty email. *)
Definition rename : Profile.body :=
  Profile.mk JUndefined (JStr "") (JStr "Alice") JUndefined JNull JUndefined.


(** A profile update that changes the password. *)
Definition new_password : Profile.body :=
  Profile.mk JUndefined JUndefined JUndefined JUndefined JUndefined
             (JStr "correct horse").

(** The safe integers 0 and 10. *)
Definition zero : safe_integer := mkSafe 0 eq_refl.
Definition ten : safe_integer := mkSafe 10 eq_refl.

(** A payment with all five fields, the amount being zero. *)
Definition free_of_charge : Payment.body :=
  Payment.mk (Scalar (JStr "4111111111111111")) (Scalar (JStr "12/30"))
             (Scalar (JStr "123")) (Scalar (JStr "A. Lice"))
             (Scalar (JNum zero)).

Definition ten_euros : Payment.body :=
  Payment.mk (Scalar (JStr "4111111111111111")) (Scalar (JStr "12/30"))
             (Scalar (JStr "123")) (Scalar (JStr "A. Lice"))
             (Scalar (JNum ten)).

(** A payment whose amount is the object [{"toString": 1}], which no
    template literal can print. *)
Definition unprintable_amount : Payment.body :=
  Payment.mk (Scalar (JStr "4111111111111111")) (Scalar (JStr "12/30"))
             (Scalar (JStr "123")) (Scalar (JStr "A. Lice"))
             (Other None).

(** A payment of twelve and a half, a number that is not an integer. *)
Definition twelve_fifty : Payment.body :=
  Payment.mk (Scalar (JStr "4111111111111111")) (Scalar (JStr "12/30"))
             (Scalar (JStr "123")) (Scalar (JStr "A. Lice"))
             (Other (Some "12.5")).

Definition quiet : World := mkWorld with_alice [].

End Scenario.
Import Scenario.

Example with_alice_users : users with_alice = [alice_stored].
Proof. reflexivity. Qed.

Example alice_logs_in :
  status (loginUser (J := MockJwt.mock) secret with_alice
            (Login.mk "alice@example.com" (JStr "hunter2")) 0) = 200.
Proof. reflexivity. Qed.

Example rename_run :
  users (snd (updateUserProfile (J := MockJwt.mock) secret with_alice 0 rename 7 0)) =
  [mkUser 0 "alice" "alice@example.com"
          (Digest (mkSalt 10 1) (Plain "hunter2")) (Some "Alice") None None].
Proof. reflexivity. Qed.

Example payment_run :
  fst (processPayment quiet ten_euros 1700000000000) =
  mkResponse 200
    (Receipt "Payment processed successfully!" "TXN_1700000000000"
             (Scalar (JNum ten))
             "completed").
Proof. reflexivity. Qed.

(** C1 does not hold as stated: a signup with the username of a stored
    user and a new email is refused with status 500, not 400; and a
    signup whose email and username nobody has, but whose password is
    empty, does not succeed: it is refused with 500 as well. *)
Lemma register_taken_username_is_500 :
  (In alice_stored (users with_alice) /\
   username alice_stored = Signup.username alice_again /\
   registerUser (J := MockJwt.mock) secret with_alice alice_again 2 0 =
   (mkResponse 500 (ErrorMessage DuplicateKey), with_alice) /\
   status (fst (registerUser (J := MockJwt.mock) secret with_alice alice_again 2 0))
   <> 400)
  /\
  (unused with_alice carol_no_password /\
   registerUser (J := MockJwt.mock) secret with_alice carol_no_password 3 0 =
   (mkResponse 500 (ErrorMessage (ValidationError ["password"])), with_alice)).
Proof.
  split.
  - split; [now left|]. split; [reflexivity|]. split; [reflexivity|].
    discriminate.
  - split; [|reflexivity].
    intros v [<-|[]]. split; discriminate.
Qed.

Lemma register_conflict_and_success_witness :
  status (fst (registerUser (J := MockJwt.mock) secret empty alice 1 0)) = 201 /\
  status (fst (registerUser (J := MockJwt.mock) secret with_alice bob 2 5)) = 201.
Proof.
  destruct (proj2 (proj2 (@register_conflict_and_success MockJwt.mock secret
                            empty alice 1 0)) bob 2 5)
    as (u1 & u2 & d1 & d2 & E1 & E2 & _).
  - repeat split; discriminate.
  - repeat split; discriminate.
  - intros v [].
  - intros v [].
  - discriminate.
  - discriminate.
  - unfold with_alice. rewrite E1. cbn [fst snd]. rewrite E2.
    split; reflexivity.
Defined.

Lemma token_round_trip_and_expiry_witness :
  (0 <= 3599000 <= 0 + 3599000 /\
   verify (JsonWebToken := MockJwt.mock)
          (Some (generateToken (J := MockJwt.mock) secret 7 0)) secret 3599000 =
   Decoded 7)
  /\
  (0 + 3600000 < 3600001 /\
   verify (JsonWebToken := MockJwt.mock)
          (Some (generateToken (J := MockJwt.mock) secret 7 0)) secret 3600001 =
   Thrown TokenExpiredError /\
   protect (J := MockJwt.mock) secret
           (Some ("Bearer " ++ generateToken (J := MockJwt.mock) secret 7 0)%string)
           3600001 =
   [Respond (mkResponse 401 (Message "Not authorized, token failed"))]).
Proof.
  split.
  - split; [lia|].
    apply (proj1 (proj2 (@token_round_trip_and_expiry MockJwt.mock secret
                           7 0 3599000))).
    lia.
  - split; [reflexivity|].
    apply (proj1 (proj2 (proj2 (@token_round_trip_and_expiry MockJwt.mock secret
                                  7 0 3600001)))).
    reflexivity.
Defined.

Example login_with_wrong_string_password :
  loginUser (J := MockJwt.mock) secret with_alice
            (Login.mk "alice@example.com" (JStr "hunter3")) 0 =
  loginUser (J := MockJwt.mock) secret with_alice
            (Login.mk "nobody@example.com" (JStr "hunter2")) 9.
Proof. reflexivity. Qed.

(** A login body without a password: 500 for the email of alice, 401
    for an email nobody has. *)
Lemma login_without_password_reveals_stored_email :
  loginUser (J := MockJwt.mock) secret with_alice
            (Login.mk "alice@example.com" JUndefined) 0 =
  mkResponse 500 (ErrorMessage IllegalArguments) /\
  loginUser (J := MockJwt.mock) secret with_alice
            (Login.mk "nobody@example.com" JUndefined) 0 =
  mkResponse 401 (Message "Invalid email or password") /\
  loginUser (J := MockJwt.mock) secret with_alice
            (Login.mk "alice@example.com" JUndefined) 0 <>
  loginUser (J := MockJwt.mock) secret with_alice
            (Login.mk "nobody@example.com" JUndefined) 0.
Proof.
  apply (proj2 (@login_failure_reveals_email_without_string_password
                  MockJwt.mock secret with_alice alice_stored
                  "alice@example.com" "nobody@example.com" 0 0
                  eq_refl eq_refl) JUndefined).
  discriminate.
Defined.

Lemma profile_update_keeps_absent_fields_witness :
  exists user',
    findById (snd (updateUserProfile (J := MockJwt.mock) secret with_alice 0
                     rename 7 0)) 0 = Some user' /\
    stored Username user' = stored Username alice_stored.
Proof.
  apply (@profile_update_keeps_absent_fields MockJwt.mock secret with_alice 0
           rename 7 0 alice_stored Username); reflexivity.
Defined.

Lemma profile_update_falsy_is_omitted_witness :
  updateUserProfile (J := MockJwt.mock) secret with_alice 0 rename 7 0 =
  updateUserProfile (J := MockJwt.mock) secret with_alice 0 (omit Email rename) 7 0 /\
  exists user',
    findById (snd (updateUserProfile (J := MockJwt.mock) secret with_alice 0
                     rename 7 0)) 0 = Some user' /\
    stored Email user' = stored Email alice_stored.
Proof.
  apply (@profile_update_falsy_is_omitted MockJwt.mock secret with_alice 0
           rename 7 0 alice_stored Email); reflexivity.
Defined.

(** The characters of alice's stored hash. *)
Example alice_hash_text : text (password alice_stored) = "$2a$10$1$hunter2".
Proof. reflexivity. Qed.



Lemma hash_then_compare_witness :
  compare "hunter2" (password (pre_save true 1 (mkUser 0 "alice"
     "alice@example.com" (Plain "hunter2") None None None))) = true /\
  compare "hunter3" (password (pre_save true 1 (mkUser 0 "alice"
     "alice@example.com" (Plain "hunter2") None None None))) = false.
Proof.
  destruct (hash_then_compare "hunter2" "hunter3" 1 2
              (mkUser 0 "alice" "alice@example.com" (Plain "hunter2")
                      None None None) eq_refl) as (Hsame & Hwrong & _).
  split; [exact Hsame|]. apply Hwrong. discriminate.
Defined.

(** C8 does not hold as stated: a request that has all five fields, the
    amount being 0, is refused with 400; a request whose five fields
    are all truthy, the amount being an object that cannot be converted
    to a string, is answered 500; and two different requests served at
    the same clock reading get the same transaction id. *)
Lemma payment_with_zero_amount_is_refused :
  (all_present free_of_charge = true /\
   processPayment quiet free_of_charge 1700000000000 =
   (mkResponse 400 (Message "Missing payment details."), quiet))
  /\
  (all_present unprintable_amount = true /\
   all_truthy unprintable_amount = true /\
   fst (processPayment quiet unprintable_amount 1700000000000) =
   mkResponse 500 (Message "Payment failed. Please try again."))
  /\
  (ten_euros <> twelve_fifty /\
   transactionId_of (fst (processPayment quiet ten_euros 1700000000000)) =
   Some "TXN_1700000000000" /\
   transactionId_of (fst (processPayment quiet twelve_fifty 1700000000000)) =
   Some "TXN_1700000000000").
Proof. repeat split. discriminate. Qed.

Example payment_of_a_fraction :
  fst (processPayment quiet twelve_fifty 1700000000000) =
  mkResponse 200
    (Receipt "Payment processed successfully!" "TXN_1700000000000"
             (Other (Some "12.5")) "completed").
Proof. reflexivity. Qed.

Lemma payment_validation_and_receipt_witness :
  processPayment quiet ten_euros 1700000000000 =
  (mkResponse 200
     (Receipt "Payment processed successfully!" "TXN_1700000000000"
              (Scalar (JNum ten)) "completed"),
   mkWorld with_alice
     [Log "Processing payment for A. Lice with amount 10";
      Log "Card Number: 4111111111111111, Expiry: 12/30, CVV: 123"]) /\
  transactionId_of (fst (processPayment quiet ten_euros 1700000000000)) <>
  transactionId_of (fst (processPayment quiet ten_euros 1700000000001)).
Proof.
  destruct (proj1 (proj2 (payment_validation_and_receipt quiet ten_euros
                            1700000000000)) eq_refl eq_refl)
    as (name & amt & number & expiry & code & H1 & H2 & H3 & H4 & H5
        & Hreceipt & Hfresh).
  split; [reflexivity|].
  apply Hfresh; [reflexivity | reflexivity | discriminate].
Defined.

Lemma protect_bearer_without_token_witness :
  startsWith "Bearer " "Bearer" = true /\
  truthy_str (index (split " " "Bearer ") 1) = false /\
  protect (J := MockJwt.mock) secret (Some "Bearer ") 0 =
  [Respond (mkResponse 401 (Message "Not authorized, token failed"));
   Respond (mkResponse 401 (Message "Not authorized, no token"))].
Proof.
  split; [reflexivity|]. split; [reflexivity|].
  apply (@protect_bearer_without_token_responds_twice MockJwt.mock secret
           "Bearer " 0); reflexivity.
Defined.

(* ================================================================== *)
(** * More on the store: what every reachable collection satisfies *)
(* ================================================================== *)

(** The stored password is the digest, at cost factor 10, of a string
    that is not empty. *)
Definition salted (u : User) : Prop :=
  exists (entropy : N) (plaintext : string),
    password u = Digest (mkSalt 10 entropy) (Plain plaintext) /\
    plaintext <> EmptyString.

(** The [required: true] paths of a stored document have a value. *)
Definition complete (u : User) : Prop :=
  username u <> EmptyString /\ email u <> EmptyString.

Lemma salted_is_digest (u : User) : salted u -> is_digest (password u) = true.
Proof. intros (n & p & -> & _). reflexivity. Qed.

(** What [save] checked before it returned. *)
Lemma save_validated (d : Database) (loaded this : User) (entropy : N)
      (saved : User) (d' : Database) :
  save d loaded this entropy = Ok (saved, d') -> validate this = Ok tt.
Proof.
  unfold save, bind.
  destruct (validate this) as [[]|err]; [reflexivity | discriminate].
Qed.

(** [save] throws what the validators or the unique indexes throw. *)
Lemma save_throws (d : Database) (loaded this : User) (entropy : N) :
  validate this = Ok tt ->
  taken username (username this) (others this (users d))
  || taken email (email this) (others this (users d)) = true ->
  save d loaded this entropy = Throw DuplicateKey.
Proof.
  intros Hv Ht. unfold save, bind. rewrite Hv. unfold unique.
  set (flag := negb _).
  destruct (pre_save_frame flag entropy this) as (Hid & Hu & He & _).
  rewrite Hu, He.
  replace (others (pre_save flag entropy this) (users d))
    with (others this (users d)) by (unfold others; now rewrite Hid).
  now rewrite Ht.
Qed.

Lemma edited_id (user : User) (body : Profile.body) :
  _id (edited user body) = _id user.
Proof. reflexivity. Qed.

Lemma edited_complete (user : User) (body : Profile.body) :
  complete user -> complete (edited user body).
Proof.
  intros [Hu He]. unfold complete, edited, or_string. simpl. split.
  - destruct (truthy (Profile.username body)) eqn:Hv;
      [now apply js_to_string_truthy | assumption].
  - destruct (truthy (Profile.email body)) eqn:Hv;
      [now apply js_to_string_truthy | assumption].
Qed.

Lemma edited_validates (user : User) (body : Profile.body) :
  complete user -> is_digest (password user) = true ->
  validate (edited user body) = Ok tt.
Proof.
  intros Hc Hd. apply validate_ok.
  destruct (edited_complete user body Hc) as [Hu He].
  repeat split; try assumption.
  rewrite password_edited. unfold or_password.
  destruct (truthy (Profile.password body)) eqn:Hv;
    [|now destruct (password user)].
  destruct (String.eqb _ (text (password user)));
    [now destruct (password user)|].
  simpl. apply String.eqb_neq. now apply js_to_string_truthy.
Qed.

Section Invariants.

Context {J : JsonWebToken}.
Variable JWT_SECRET : string.

Lemma register_salted (d : Database) (b : Signup.body) (entropy now : N) :
  (forall u, In u (users d) -> salted u /\ complete u) ->
  forall u, In u (users (snd (registerUser JWT_SECRET d b entropy now))) ->
            salted u /\ complete u.
Proof.
  intros Hd. unfold registerUser.
  destruct (findOne_email d (Signup.email b)); [assumption|].
  destruct (create d _ _ _ entropy) as [[user d']|err] eqn:Hc; [|assumption].
  apply create_ok in Hc as (-> & -> & (Hu & He & Hp) & _). simpl.
  intros u Hin. apply in_app_or in Hin as [Hin|[<-|[]]]; [auto|].
  split; [|now split].
  exists entropy, (Signup.password b). now split.
Qed.

Lemma update_salted (d : Database) (id : N) (body : Profile.body)
      (entropy now : N) :
  (forall u, In u (users d) -> salted u /\ complete u) ->
  forall u, In u (users (snd (updateUserProfile JWT_SECRET d id body entropy now))) ->
            salted u /\ complete u.
Proof.
  intros Hd.
  destruct (findById d id) as [user|] eqn:Hfind;
    [|now rewrite update_unknown_user].
  destruct (save d user (edited user body) entropy) as [[saved d']|err] eqn:Hsave;
    [|now rewrite (update_not_saved JWT_SECRET d id body entropy now user err)].
  destruct (update_saved JWT_SECRET d id body entropy now user saved d' Hfind Hsave)
    as (-> & _ & _ & Hsaved).
  pose proof (save_validated _ _ _ _ _ _ Hsave) as Hvalid.
  apply save_ok in Hsave as (_ & -> & _). simpl.
  intros u Hin. apply in_replace in Hin as [->|Hin]; [|auto].
  destruct (Hd user (proj2 (findById_id _ _ _ Hfind))) as [Hsalt Hcomp].
  split.
  - rewrite Hsaved. unfold salted. rewrite saved_password.
    destruct (truthy (Profile.password body)) eqn:Hv; [|exact Hsalt].
    cbn [andb].
    destruct (String.eqb (js_to_string (Profile.password body))
                         (text (password user))); cbn [negb]; [exact Hsalt|].
    exists entropy, (js_to_string (Profile.password body)).
    split; [reflexivity | now apply js_to_string_truthy].
  - rewrite Hsaved. unfold complete.
    destruct (pre_save_frame (negb (same_text (password (edited user body))
                                            (password user)))
                             entropy (edited user body))
      as (_ & -> & -> & _).
    now apply edited_complete.
Qed.

Lemma reachable_salted_complete (d : Database) :
  reachable JWT_SECRET d ->
  forall u, In u (users d) -> salted u /\ complete u.
Proof.
  induction 1 as [|d b entropy now _ IH|d id body entropy now _ IH].
  - intros u [].
  - now apply register_salted.
  - now apply update_salted.
Qed.

(** X2. In every collection the handlers can produce, every stored
    password is a bcrypt digest at cost factor 10 of a non-empty string:
    no plaintext password and no empty password is ever persisted, by a
    signup or by a profile update. *)
Theorem stored_passwords_are_salted_digests :
  forall d : Database,
    reachable JWT_SECRET d ->
    forall u, In u (users d) ->
      exists (entropy : N) (plaintext : string),
        password u = hash (Plain plaintext) (genSalt 10 entropy) /\
        plaintext <> EmptyString /\
        compare plaintext (password u) = true.
Proof.
  intros d Hreach u Hin.
  destruct (proj1 (reachable_salted_complete d Hreach u Hin)) as (n & p & Hpw & Hp).
  exists n, p. rewrite Hpw. repeat split; try assumption.
  apply String.eqb_refl.
Qed.

(** X3. In every collection the handlers can produce, every stored user
    has a non-empty username and a non-empty email: the required
    validators run on signup and on every profile update, and a falsy
    value in an update never blanks a field. *)
Theorem stored_users_have_required_fields :
  forall d : Database,
    reachable JWT_SECRET d ->
    forall u, In u (users d) ->
      username u <> EmptyString /\ email u <> EmptyString.
Proof.
  intros d Hreach u Hin.
  exact (proj2 (reachable_salted_complete d Hreach u Hin)).
Qed.

End Invariants.

(* ================================================================== *)
(** * More on the account handlers *)
(* ================================================================== *)

Lemma find_other_replace (this : User) (l : list User) (other : N) :
  other <> _id this ->
  find (fun v => N.eqb (_id v) other) (replace this l) =
  find (fun v => N.eqb (_id v) other) l.
Proof.
  intros Hne. induction l as [|a l IH]; simpl; [reflexivity|].
  destruct (N.eqb_spec (_id a) (_id this)) as [E|E].
  - rewrite E. destruct (N.eqb_spec (_id this) other) as [E'|_]; [congruence|].
    exact IH.
  - now rewrite IH.
Qed.

(** With unique emails, [findOne({ email })] finds the one document that
    has the email. *)
Lemma find_unique_email (l : list User) (u : User) :
  NoDup (map email l) -> In u l ->
  find (fun v => String.eqb (email v) (email u)) l = Some u.
Proof.
  induction l as [|a l IH]; simpl; intros Hnd Hin; [contradiction|].
  inversion Hnd as [|? ? Ha Hl]; subst.
  destruct Hin as [->|Hin]; [now rewrite String.eqb_refl|].
  destruct (String.eqb_spec (email a) (email u)) as [E|_]; [|auto].
  destruct Ha. rewrite E. now apply in_map.
Qed.

Lemma compare_true (s : string) (h : pwd) :
  compare s h = true <-> exists st, h = Digest st (Plain s).
Proof.
  split.
  - destruct h as [p|st [p|st' p']]; simpl; try discriminate.
    intros E. apply String.eqb_eq in E. subst. now exists st.
  - intros [st ->]. apply String.eqb_refl.
Qed.

Section MoreAccounts.

Context {J : JsonWebToken}.
Variable JWT_SECRET : string.

(** ** Signup *)

(** X16. A signup with a new email in which the username, the email or
    the password is the empty string is refused with status 500 and a
    validation error that names exactly the empty paths; nothing is
    stored, and the validators run before the unique indexes, so this
    is the answer even when the username is taken. *)
Theorem register_empty_field_is_validation_error :
  forall (d : Database) (b : Signup.body) (entropy now : N),
    findOne_email d (Signup.email b) = None ->
    Signup.username b = EmptyString \/ Signup.email b = EmptyString \/
    Signup.password b = EmptyString ->
    exists paths,
      registerUser JWT_SECRET d b entropy now =
      (mkResponse 500 (ErrorMessage (ValidationError paths)), d) /\
      paths <> [] /\
      (In "username" paths <-> Signup.username b = EmptyString) /\
      (In "email" paths <-> Signup.email b = EmptyString) /\
      (In "password" paths <-> Signup.password b = EmptyString).
Proof.
  intros d b entropy now Hnew Hempty.
  unfold registerUser. rewrite Hnew. unfold create, bind, validate, missing.
  cbn [username email password is_empty].
  destruct (String.eqb_spec (Signup.username b) "") as [Hu|Hu];
    destruct (String.eqb_spec (Signup.email b) "") as [He|He];
    destruct (String.eqb_spec (Signup.password b) "") as [Hp|Hp];
    cbn [app];
    try (exfalso; destruct Hempty as [H|[H|H]]; contradiction);
    eexists; (split; [reflexivity|]); (split; [discriminate|]);
    repeat split; intros H; cbn in *; intuition (try discriminate; try congruence).
Qed.

(** ** Profile update *)

(** X5. A profile update never touches the document of another user:
    whatever the request and its outcome, every other identifier
    resolves to what it resolved to before. *)
Theorem profile_update_frames_other_users :
  forall (d : Database) (id other : N) (body : Profile.body) (entropy now : N),
    other <> id ->
    findById (snd (updateUserProfile JWT_SECRET d id body entropy now)) other =
    findById d other.
Proof.
  intros d id other body entropy now Hne.
  destruct (findById d id) as [user|] eqn:Hfind;
    [|now rewrite update_unknown_user].
  destruct (save d user (edited user body) entropy) as [[saved d']|err] eqn:Hsave;
    [|now rewrite (update_not_saved JWT_SECRET d id body entropy now user err)].
  destruct (update_saved JWT_SECRET d id body entropy now user saved d' Hfind Hsave)
    as (-> & Hfound & _ & _).
  apply save_ok in Hsave as (_ & -> & _). unfold findById. simpl.
  apply find_other_replace.
  destruct (findById_id _ _ _ Hfound) as [-> _]. exact Hne.
Qed.

(** X6. A profile update that answers 200 stores, for each of username,
    email, firstName, lastName and phoneNumber that the request gives a
    truthy scalar (a string that is not empty, [true], or an integer
    other than 0 that a double holds exactly), that value cast to a
    string: the string itself, "true", or the decimal digits. *)
Theorem profile_update_replaces_supplied_fields :
  forall (d : Database) (id : N) (body : Profile.body) (entropy now : N)
         (f : field),
    f <> Password ->
    status (fst (updateUserProfile JWT_SECRET d id body entropy now)) = 200 ->
    truthy (requested f body) = true ->
    exists user',
      findById (snd (updateUserProfile JWT_SECRET d id body entropy now)) id =
      Some user' /\
      stored f user' = Some (Plain (js_to_string (requested f body))).
Proof.
  intros d id body entropy now f Hf.
  destruct (findById d id) as [user|] eqn:Hfind;
    [|rewrite update_unknown_user by assumption; discriminate].
  destruct (save d user (edited user body) entropy) as [[saved d']|err] eqn:Hsave;
    [|rewrite (update_not_saved JWT_SECRET d id body entropy now user err)
        by assumption; discriminate].
  destruct (update_saved JWT_SECRET d id body entropy now user saved d' Hfind Hsave)
    as (-> & Hfound & _ & Hsaved).
  intros _ Hv. exists saved. split; [exact Hfound|].
  rewrite Hsaved.
  destruct (pre_save_frame (negb (same_text (password (edited user body))
                                          (password user)))
                           entropy (edited user body))
    as (_ & Hu & He & Hfn & Hln & Hph).
  destruct f; cbn [stored requested] in *;
    rewrite ?Hu, ?He, ?Hfn, ?Hln, ?Hph; try contradiction;
    unfold edited; cbn [username email firstName lastName phoneNumber];
    unfold or_string, or_optional; now rewrite Hv.
Qed.

(** X7. In a collection the handlers produced, a profile update that
    asks for the username or the email of another stored user, as a
    string or as a truthy scalar that is cast to it, is answered 500
    with the duplicate-key error of the unique index, and nothing is
    stored. *)
Theorem profile_update_conflict :
  forall (d : Database) (id : N) (body : Profile.body) (entropy now : N)
         (user other : User),
    reachable JWT_SECRET d ->
    findById d id = Some user ->
    In other (users d) -> _id other <> id ->
    (truthy (Profile.username body) = true /\
     username other = js_to_string (Profile.username body)) \/
    (truthy (Profile.email body) = true /\
     email other = js_to_string (Profile.email body)) ->
    updateUserProfile JWT_SECRET d id body entropy now =
    (mkResponse 500 (ErrorMessage DuplicateKey), d).
Proof.
  intros d id body entropy now user other Hreach Hfind Hin Hother Hclash.
  destruct (findById_id _ _ _ Hfind) as [Hid Huser].
  destruct (reachable_salted_complete JWT_SECRET d Hreach user Huser)
    as [Hsalt Hcomp].
  apply (update_not_saved JWT_SECRET d id body entropy now user DuplicateKey Hfind).
  apply save_throws.
  - apply edited_validates; [assumption | now apply salted_is_digest].
  - assert (Hothers : In other (others (edited user body) (users d))).
    { unfold others. apply filter_In. split; [assumption|].
      rewrite edited_id, Hid. apply negb_true_iff. now apply N.eqb_neq. }
    apply orb_true_iff.
    destruct Hclash as [[Hv Hname]|[Hv Hmail]]; [left|right];
      apply (taken_true _ _ _ other Hothers);
      unfold edited; cbn [username email]; unfold or_string; now rewrite Hv.
Qed.

(** X8. When a profile update answers 200, the body of the response is
    the stored document as it now is, under the identifier of the
    request, and it carries a token that verifies to that identifier;
    the password is not part of it. *)
Theorem profile_update_response_is_stored_document :
  forall (d : Database) (id : N) (body : Profile.body) (entropy now : N),
    status (fst (updateUserProfile JWT_SECRET d id body entropy now)) = 200 ->
    exists user',
      findById (snd (updateUserProfile JWT_SECRET d id body entropy now)) id =
      Some user' /\
      payload (fst (updateUserProfile JWT_SECRET d id body entropy now)) =
      ProfileOf id (username user') (email user') (firstName user')
                (lastName user') (phoneNumber user')
                (generateToken JWT_SECRET id now) /\
      verify (Some (generateToken JWT_SECRET id now)) JWT_SECRET now = Decoded id.
Proof.
  intros d id body entropy now.
  destruct (findById d id) as [user|] eqn:Hfind;
    [|rewrite update_unknown_user by assumption; discriminate].
  destruct (save d user (edited user body) entropy) as [[saved d']|err] eqn:Hsave;
    [|rewrite (update_not_saved JWT_SECRET d id body entropy now user err)
        by assumption; discriminate].
  destruct (update_saved JWT_SECRET d id body entropy now user saved d' Hfind Hsave)
    as (-> & Hfound & _ & _).
  intros _. exists saved. destruct (findById_id _ _ _ Hfound) as [Hid _].
  split; [exact Hfound|]. split; [simpl; now rewrite Hid | apply verify_fresh].
Qed.

(** ** Login *)

(** X9. In a collection the handlers produced, a login whose email and
    password are JSON strings is answered 200 exactly when a stored user
    has that email and the digest of that password; the response then
    names that user and carries a token that verifies to its identifier.
    With the same email and a password that is not a string (a missing
    one, null, a boolean, a number), the login is never answered 200:
    401 when no stored user has the email, 500 when one has. *)
Theorem login_succeeds_exactly_on_matching_credentials :
  forall (d : Database) (mail pw : string) (now : N),
    reachable JWT_SECRET d ->
    (status (loginUser JWT_SECRET d (Login.mk mail (JStr pw)) now) = 200 <->
     exists user st,
       In user (users d) /\ email user = mail /\
       password user = hash (Plain pw) st)
    /\
    (status (loginUser JWT_SECRET d (Login.mk mail (JStr pw)) now) = 200 ->
     exists user,
       In user (users d) /\
       loginUser JWT_SECRET d (Login.mk mail (JStr pw)) now =
       mkResponse 200 (Account (_id user) (username user) mail
                               (generateToken JWT_SECRET (_id user) now)) /\
       verify (Some (generateToken JWT_SECRET (_id user) now)) JWT_SECRET now =
       Decoded (_id user))
    /\
    (forall v : jsval,
        (forall s, v <> JStr s) ->
        loginUser JWT_SECRET d (Login.mk mail v) now =
        if existsb (fun u => String.eqb (email u) mail) (users d)
        then mkResponse 500 (ErrorMessage IllegalArguments)
        else mkResponse 401 (Message "Invalid email or password")).
Proof.
  intros d mail pw now Hreach.
  assert (Hfwd : status (loginUser JWT_SECRET d (Login.mk mail (JStr pw)) now) = 200 ->
                 exists user,
                   findOne_email d mail = Some user /\
                   compare pw (password user) = true).
  { unfold loginUser. cbn [Login.email Login.password compare_js].
    destruct (findOne_email d mail) as [user|]; [|discriminate].
    destruct (compare pw (password user)) eqn:Hc; [|discriminate].
    intros _. now exists user. }
  split; [split|split].
  - intros H. destruct (Hfwd H) as (user & Hfind & Hc).
    apply find_some in Hfind as [Hin Hmail]. apply String.eqb_eq in Hmail.
    apply compare_true in Hc as [st Hpw]. now exists user, st.
  - intros (user & st & Hin & Hmail & Hpw).
    destruct (reachable_indexed JWT_SECRET d Hreach) as (_ & Hnd & _).
    pose proof (find_unique_email _ _ Hnd Hin) as Hfind. rewrite Hmail in Hfind.
    unfold loginUser, findOne_email. cbn [Login.email Login.password compare_js].
    rewrite Hfind, Hpw, compare_hash.
    now rewrite String.eqb_refl.
  - intros H. destruct (Hfwd H) as (user & Hfind & Hc).
    exists user. pose proof Hfind as Hfind'.
    apply find_some in Hfind' as [Hin Hmail]. apply String.eqb_eq in Hmail.
    split; [assumption|]. split; [|apply verify_fresh].
    unfold loginUser. cbn [Login.email Login.password compare_js].
    now rewrite Hfind, Hc, Hmail.
  - intros v Hv. unfold loginUser, findOne_email. cbn [Login.email Login.password].
    destruct (find (fun u => String.eqb (email u) mail) (users d)) as [user|] eqn:Hfind.
    + apply find_some in Hfind as [Hin Hmail].
      assert (Hex : existsb (fun u => String.eqb (email u) mail) (users d) = true)
        by (apply existsb_exists; now exists user).
      rewrite Hex.
      destruct v as [| |b|n|s]; try reflexivity. now destruct (Hv s).
    + assert (Hex : existsb (fun u => String.eqb (email u) mail) (users d) = false).
      { apply not_true_is_false. intros Hex.
        apply existsb_exists in Hex as (u & Hin & Hmail).
        now rewrite (find_none _ _ Hfind u Hin) in Hmail. }
      now rewrite Hex.
Qed.

(** X15. After a signup answered 201, whose username, email and
    password are JSON strings, a login with the email and the password
    string of the signup is answered 200 with the identifier, the
    username and the email of the signup response; a login with that
    email and a password that is not a string is answered 500. *)
Theorem signup_then_login_round_trip :
  forall (d : Database) (b : Signup.body) (entropy now later : N),
    status (fst (registerUser JWT_SECRET d b entropy now)) = 201 ->
    exists id,
      fst (registerUser JWT_SECRET d b entropy now) =
      mkResponse 201 (Account id (Signup.username b) (Signup.email b)
                              (generateToken JWT_SECRET id now)) /\
      loginUser JWT_SECRET (snd (registerUser JWT_SECRET d b entropy now))
                (Login.mk (Signup.email b) (JStr (Signup.password b))) later =
      mkResponse 200 (Account id (Signup.username b) (Signup.email b)
                              (generateToken JWT_SECRET id later)) /\
      forall v : jsval,
        (forall s, v <> JStr s) ->
        loginUser JWT_SECRET (snd (registerUser JWT_SECRET d b entropy now))
                  (Login.mk (Signup.email b) v) later =
        mkResponse 500 (ErrorMessage IllegalArguments).
Proof.
  intros d b entropy now later. unfold registerUser.
  destruct (findOne_email d (Signup.email b)) eqn:Hfind; [discriminate|].
  destruct (create d _ _ _ entropy) as [[user d']|err] eqn:Hc; [|discriminate].
  intros _. apply create_ok in Hc as (Huser & -> & _).
  exists (_id user). cbn [fst snd]. split; [now subst user|].
  unfold loginUser, findOne_email. cbn [users Login.email Login.password].
  rewrite (find_app_last _ _ user Hfind) by (subst user; apply String.eqb_refl).
  split.
  - subst user. cbn [password username email _id compare_js].
    now rewrite compare_hash, String.eqb_refl.
  - intros v Hv. destruct v as [| |x|n|s]; try reflexivity. now destruct (Hv s).
Qed.

End MoreAccounts.

(* ================================================================== *)
(** * More on the gate and the protected routes *)
(* ================================================================== *)

Lemma free_of_append (sep : ascii) (a b : string) :
  free_of sep a = true -> free_of sep b = true ->
  free_of sep (a ++ b) = true.
Proof.
  intros Ha Hb. induction a as [|c a IH]; simpl in *; [assumption|].
  apply andb_prop in Ha as [Hc Ha]. now rewrite Hc, IH.
Qed.

Lemma string_append_assoc (a b c : string) :
  ((a ++ b) ++ c = a ++ (b ++ c))%string.
Proof. induction a as [|x a IH]; simpl; [reflexivity | now rewrite IH]. Qed.

(** The second segment of a header whose first two segments are closed
    by spaces. *)
Lemma second_segment (first token rest : string) :
  free_of " " first = true -> free_of " " token = true ->
  index (split " " (first ++ String " " (token ++ String " " rest))) 1 =
  Some token.
Proof.
  intros Hf Ht. rewrite (split_append _ _ _ Hf), (split_append _ _ _ Ht).
  reflexivity.
Qed.

Section MoreGate.

Context {J : JsonWebToken}.
Variable JWT_SECRET : string.

(** [protect] reads three things of the header. *)
Lemma protect_ext (h h' : string) (now : N) :
  truthy_str (Some h) = truthy_str (Some h') ->
  startsWith h "Bearer" = startsWith h' "Bearer" ->
  index (split " " h) 1 = index (split " " h') 1 ->
  protect JWT_SECRET (Some h) now = protect JWT_SECRET (Some h') now.
Proof. intros Ht Hp Hi. unfold protect. now rewrite Ht, Hp, Hi. Qed.



(** X12. A payment request that presents a token issued an hour or more
    before is answered 401 "Not authorized, token failed" once; the
    payment handler does not run: no receipt, nothing on the console. *)
Theorem expired_token_never_reaches_payment :
  forall (user t0 now later : N) (body : Payment.body) (w : World),
    t0 + 3600000 <= now ->
    post_api_payment JWT_SECRET
      (Some ("Bearer " ++ generateToken JWT_SECRET user t0)%string)
      body now later w =
    ([mkResponse 401 (Message "Not authorized, token failed")], w).
Proof.
  intros user t0 now later body w Hlate.
  unfold post_api_payment. apply guarded_refused.
  destruct (bearer_of_generated JWT_SECRET user t0) as (Hp & Hi & Hne).
  apply (protect_rejected_token JWT_SECRET _ (generateToken JWT_SECRET user t0)
                                TokenExpiredError); try assumption.
  now apply verify_after_one_hour.
Qed.

(** X10. The token of a 201 signup response opens the profile route for
    the user just created for as long as it lives: presented as
    "Bearer <token>" at any clock reading up to 3599 seconds after the
    signup, the route writes one response, the one [updateUserProfile]
    gives for the new identifier, and that response is never 404;
    presented an hour or more after the signup, the route answers 401
    "token failed" and stores nothing. *)
Theorem signup_token_opens_profile_route :
  forall (d : Database) (b : Signup.body) (entropy now : N),
    status (fst (registerUser JWT_SECRET d b entropy now)) = 201 ->
    exists id token,
      payload (fst (registerUser JWT_SECRET d b entropy now)) =
      Account id (Signup.username b) (Signup.email b) token /\
      forall (later : N) (body : Profile.body) (entropy' : N),
        (later <= now + 3599000 ->
         put_api_auth_profile JWT_SECRET (Some ("Bearer " ++ token)%string)
           body entropy' later (snd (registerUser JWT_SECRET d b entropy now)) =
         ([fst (updateUserProfile JWT_SECRET
                  (snd (registerUser JWT_SECRET d b entropy now))
                  id body entropy' later)],
          snd (updateUserProfile JWT_SECRET
                 (snd (registerUser JWT_SECRET d b entropy now))
                 id body entropy' later)) /\
         status (fst (updateUserProfile JWT_SECRET
                        (snd (registerUser JWT_SECRET d b entropy now))
                        id body entropy' later)) <> 404)
        /\
        (now + 3600000 <= later ->
         put_api_auth_profile JWT_SECRET (Some ("Bearer " ++ token)%string)
           body entropy' later (snd (registerUser JWT_SECRET d b entropy now)) =
         ([mkResponse 401 (Message "Not authorized, token failed")],
          snd (registerUser JWT_SECRET d b entropy now))).
Proof.
  intros d b entropy now. unfold registerUser.
  destruct (findOne_email d (Signup.email b)) eqn:Hfind; [discriminate|].
  destruct (create d _ _ _ entropy) as [[user d']|err] eqn:Hc; [|discriminate].
  intros _. apply create_ok in Hc as (Huser & Hd' & _).
  exists (_id user), (generateToken JWT_SECRET (_id user) now).
  cbn [fst snd payload]. split; [now subst user|].
  intros later body entropy'. split.
  - intros Hlive. split.
    + unfold put_api_auth_profile.
      apply (guarded_passed JWT_SECRET _ later
               (fun u d => updateUserProfile JWT_SECRET d u body entropy' later)).
      now apply protect_live_token.
    + assert (Hin : In user (users d'))
        by (subst d'; simpl; apply in_or_app; right; now left).
      destruct (find_some_in (fun v => N.eqb (_id v) (_id user)) (users d') user Hin
                             (N.eqb_refl _)) as [found Hfound].
      unfold updateUserProfile, findById. rewrite Hfound.
      destruct (save d' found (edited found body) entropy') as [[saved d2]|e];
        discriminate.
  - intros Hdead. unfold put_api_auth_profile. apply guarded_refused.
    destruct (bearer_of_generated JWT_SECRET (_id user) now) as (Hp & Hi & Hne).
    apply (protect_rejected_token JWT_SECRET _
             (generateToken JWT_SECRET (_id user) now) TokenExpiredError);
      try assumption.
    now apply verify_after_one_hour.
Qed.

(** X13. [protect] looks at the first six characters of the header and
    at what lies between its first and second space, and at nothing
    else: a header whose scheme only begins with "Bearer", such as
    "Bearerish <token>", and a header that carries more after the token,
    are both treated as "Bearer <token>". *)
Theorem protect_reads_prefix_and_second_segment :
  forall (junk token rest : string) (now : N),
    free_of " " junk = true -> free_of " " token = true ->
    protect JWT_SECRET (Some ("Bearer" ++ junk ++ " " ++ token)%string) now =
    protect JWT_SECRET (Some ("Bearer " ++ token)%string) now
    /\
    protect JWT_SECRET
            (Some ("Bearer" ++ junk ++ " " ++ token ++ " " ++ rest)%string) now =
    protect JWT_SECRET (Some ("Bearer " ++ token)%string) now.
Proof.
  intros junk token rest now Hj Ht.
  assert (Hscheme : free_of " " ("Bearer" ++ junk) = true)
    by now apply free_of_append.
  split; apply protect_ext; try reflexivity.
  - unfold startsWith. simpl. now destruct junk.
  - rewrite (bearer_header_token token Ht).
    rewrite <- string_append_assoc.
    change (" " ++ token)%string with (String " " token).
    rewrite (split_append _ _ _ Hscheme), (split_free _ _ Ht). reflexivity.
  - unfold startsWith. simpl. now destruct junk.
  - rewrite (bearer_header_token token Ht).
    rewrite <- string_append_assoc.
    apply second_segment; assumption.
Qed.

End MoreGate.

Lemma NoDup_map_inj {A B : Type} (f : A -> B) (l : list A) (x y : A) :
  NoDup (map f l) -> In x l -> In y l -> f x = f y -> x = y.
Proof.
  induction l as [|a l IH]; simpl; intros Hnd Hx Hy E; [contradiction|].
  inversion Hnd as [|? ? Ha Hl]; subst.
  destruct Hx as [->|Hx], Hy as [->|Hy]; auto.
  - destruct Ha. rewrite E. now apply in_map.
  - destruct Ha. rewrite <- E. now apply in_map.
Qed.

Section MoreProfiles.

Context {J : JsonWebToken}.
Variable JWT_SECRET : string.

(** X1. In every collection the handlers can produce, no two stored
    users share an identifier, an email or a username, and every
    identifier is below the next one to be handed out: signup and
    profile update keep the unique indexes of the schema. *)
Theorem no_two_users_share_a_key :
  forall (d : Database),
    reachable JWT_SECRET d ->
    forall u v, In u (users d) -> In v (users d) ->
      (_id u = _id v \/ email u = email v \/ username u = username v) ->
      u = v /\ _id u < next_id d.
Proof.
  intros d Hreach u v Hu Hv Hkey.
  destruct (reachable_indexed JWT_SECRET d Hreach) as (Hid & Hmail & Hname & Hbound).
  split; [|now apply Hbound].
  destruct Hkey as [E|[E|E]].
  - exact (NoDup_map_inj _id _ u v Hid Hu Hv E).
  - exact (NoDup_map_inj email _ u v Hmail Hu Hv E).
  - exact (NoDup_map_inj username _ u v Hname Hu Hv E).
Qed.

(** X14. A profile update neither adds nor removes a user and never
    changes an identifier: whatever the request and its outcome, the
    collection lists the same identifiers in the same order. *)
Theorem profile_update_keeps_identifiers :
  forall (d : Database) (id : N) (body : Profile.body) (entropy now : N),
    map _id (users (snd (updateUserProfile JWT_SECRET d id body entropy now))) =
    map _id (users d) /\
    next_id (snd (updateUserProfile JWT_SECRET d id body entropy now)) = next_id d.
Proof.
  intros d id body entropy now.
  destruct (findById d id) as [user|] eqn:Hfind;
    [|now rewrite update_unknown_user].
  destruct (save d user (edited user body) entropy) as [[saved d']|err] eqn:Hsave;
    [|now rewrite (update_not_saved JWT_SECRET d id body entropy now user err)].
  destruct (update_saved JWT_SECRET d id body entropy now user saved d' Hfind Hsave)
    as (-> & _).
  apply save_ok in Hsave as (_ & -> & _). simpl.
  split; [apply map_id_replace | reflexivity].
Qed.

End MoreProfiles.

(* ================================================================== *)
(** * The further properties on a run of the server *)
(* ================================================================== *)

Module Scenario2.

(** The database after alice, then bob, signed up. *)
Definition with_both : Database :=
  snd (registerUser (J := MockJwt.mock) secret with_alice bob 2 5).

Definition bob_stored : User :=
  mkUser 1 "bob" "bob@example.com"
         (Digest (mkSalt 10 2) (Plain "tr0ub4dor")) None None None.

(** Bob asks for alice's email. *)
Definition take_alice_email : Profile.body :=
  Profile.mk JUndefined (JStr "alice@example.com") JUndefined JUndefined
             JUndefined JUndefined.

Definition reach_with_alice : reachable (J := MockJwt.mock) secret with_alice :=
  reach_register secret empty alice 1 0 (reach_empty secret).

Definition reach_with_both : reachable (J := MockJwt.mock) secret with_both :=
  reach_register secret with_alice bob 2 5 reach_with_alice.

End Scenario2.
Import Scenario2.

Example with_both_users : users with_both = [alice_stored; bob_stored].
Proof. reflexivity. Qed.

Lemma no_two_users_share_a_key_witness :
  bob_stored = bob_stored /\ _id bob_stored < next_id with_both.
Proof.
  apply (@no_two_users_share_a_key MockJwt.mock secret with_both reach_with_both
           bob_stored bob_stored);
    [right; now left | right; now left | right; now left].
Defined.

Lemma stored_passwords_are_salted_digests_witness :
  exists (entropy : N) (plaintext : string),
    password bob_stored = hash (Plain plaintext) (genSalt 10 entropy) /\
    plaintext <> EmptyString /\
    compare plaintext (password bob_stored) = true.
Proof.
  apply (@stored_passwords_are_salted_digests MockJwt.mock secret with_both
           reach_with_both bob_stored).
  right. now left.
Defined.

Lemma stored_users_have_required_fields_witness :
  username bob_stored <> EmptyString /\ email bob_stored <> EmptyString.
Proof.
  apply (@stored_users_have_required_fields MockJwt.mock secret with_both
           reach_with_both bob_stored).
  right. now left.
Defined.

Lemma register_empty_field_is_validation_error_witness :
  exists paths,
    registerUser (J := MockJwt.mock) secret with_alice carol_no_password 3 0 =
    (mkResponse 500 (ErrorMessage (ValidationError paths)), with_alice) /\
    paths <> [] /\
    (In "username" paths <-> Signup.username carol_no_password = EmptyString) /\
    (In "email" paths <-> Signup.email carol_no_password = EmptyString) /\
    (In "password" paths <-> Signup.password carol_no_password = EmptyString).
Proof.
  apply (@register_empty_field_is_validation_error MockJwt.mock secret
           with_alice carol_no_password 3 0).
  - reflexivity.
  - right. right. reflexivity.
Defined.

Lemma profile_update_frames_other_users_witness :
  findById (snd (updateUserProfile (J := MockJwt.mock) secret with_both 1
                   new_password 7 0)) 0 =
  findById with_both 0.
Proof.
  apply (@profile_update_frames_other_users MockJwt.mock secret with_both 1 0
           new_password 7 0).
  discriminate.
Defined.

Lemma profile_update_replaces_supplied_fields_witness :
  exists user',
    findById (snd (updateUserProfile (J := MockJwt.mock) secret with_alice 0
                     rename 7 0)) 0 = Some user' /\
    stored FirstName user' = Some (Plain "Alice").
Proof.
  apply (@profile_update_replaces_supplied_fields MockJwt.mock secret with_alice
           0 rename 7 0 FirstName); [discriminate | reflexivity | reflexivity].
Defined.

Lemma profile_update_conflict_witness :
  updateUserProfile (J := MockJwt.mock) secret with_both 1 take_alice_email 7 0 =
  (mkResponse 500 (ErrorMessage DuplicateKey), with_both).
Proof.
  apply (@profile_update_conflict MockJwt.mock secret with_both 1
           take_alice_email 7 0 bob_stored alice_stored reach_with_both).
  - reflexivity.
  - now left.
  - discriminate.
  - right. split; reflexivity.
Defined.

Lemma profile_update_response_is_stored_document_witness :
  exists user',
    findById (snd (updateUserProfile (J := MockJwt.mock) secret with_alice 0
                     rename 7 0)) 0 = Some user' /\
    payload (fst (updateUserProfile (J := MockJwt.mock) secret with_alice 0
                    rename 7 0)) =
    ProfileOf 0 (username user') (email user') (firstName user')
              (lastName user') (phoneNumber user')
              (generateToken (J := MockJwt.mock) secret 0 0) /\
    verify (JsonWebToken := MockJwt.mock)
           (Some (generateToken (J := MockJwt.mock) secret 0 0)) secret 0 =
    Decoded 0.
Proof.
  apply (@profile_update_response_is_stored_document MockJwt.mock secret
           with_alice 0 rename 7 0).
  reflexivity.
Defined.

Lemma login_succeeds_exactly_on_matching_credentials_witness :
  status (loginUser (J := MockJwt.mock) secret with_both
                    (Login.mk "alice@example.com" (JStr "hunter2")) 9) = 200.
Proof.
  apply (proj2 (proj1 (@login_succeeds_exactly_on_matching_credentials
                         MockJwt.mock secret with_both "alice@example.com"
                         "hunter2" 9 reach_with_both))).
  exists alice_stored, (mkSalt 10 1).
  split; [now left|]. split; reflexivity.
Defined.

Lemma signup_then_login_round_trip_witness :
  exists id,
    fst (registerUser (J := MockJwt.mock) secret empty alice 1 0) =
    mkResponse 201 (Account id (Signup.username alice) (Signup.email alice)
                            (generateToken (J := MockJwt.mock) secret id 0)) /\
    loginUser (J := MockJwt.mock) secret
              (snd (registerUser (J := MockJwt.mock) secret empty alice 1 0))
              (Login.mk (Signup.email alice) (JStr (Signup.password alice))) 9 =
    mkResponse 200 (Account id (Signup.username alice) (Signup.email alice)
                            (generateToken (J := MockJwt.mock) secret id 9)) /\
    forall v : jsval,
      (forall s, v <> JStr s) ->
      loginUser (J := MockJwt.mock) secret
                (snd (registerUser (J := MockJwt.mock) secret empty alice 1 0))
                (Login.mk (Signup.email alice) v) 9 =
      mkResponse 500 (ErrorMessage IllegalArguments).
Proof.
  apply (@signup_then_login_round_trip MockJwt.mock secret empty alice 1 0 9).
  reflexivity.
Defined.

Lemma expired_token_never_reaches_payment_witness :
  post_api_payment (J := MockJwt.mock) secret
    (Some ("Bearer " ++ generateToken (J := MockJwt.mock) secret 0 0)%string)
    ten_euros 3600000 3601500 quiet =
  ([mkResponse 401 (Message "Not authorized, token failed")], quiet).
Proof.
  apply (@expired_token_never_reaches_payment MockJwt.mock secret 0 0 3600000
           3601500 ten_euros quiet).
  discriminate.
Defined.

Lemma signup_token_opens_profile_route_witness :
  exists id token,
    payload (fst (registerUser (J := MockJwt.mock) secret empty alice 1 0)) =
    Account id (Signup.username alice) (Signup.email alice) token /\
    forall (later : N) (body : Profile.body) (entropy' : N),
      (later <= 0 + 3599000 ->
       put_api_auth_profile (J := MockJwt.mock) secret
         (Some ("Bearer " ++ token)%string) body entropy' later
         (snd (registerUser (J := MockJwt.mock) secret empty alice 1 0)) =
       ([fst (updateUserProfile (J := MockJwt.mock) secret
                (snd (registerUser (J := MockJwt.mock) secret empty alice 1 0))
                id body entropy' later)],
        snd (updateUserProfile (J := MockJwt.mock) secret
               (snd (registerUser (J := MockJwt.mock) secret empty alice 1 0))
               id body entropy' later)) /\
       status (fst (updateUserProfile (J := MockJwt.mock) secret
                      (snd (registerUser (J := MockJwt.mock) secret empty alice 1 0))
                      id body entropy' later)) <> 404)
      /\
      (0 + 3600000 <= later ->
       put_api_auth_profile (J := MockJwt.mock) secret
         (Some ("Bearer " ++ token)%string) body entropy' later
         (snd (registerUser (J := MockJwt.mock) secret empty alice 1 0)) =
       ([mkResponse 401 (Message "Not authorized, token failed")],
        snd (registerUser (J := MockJwt.mock) secret empty alice 1 0))).
Proof.
  apply (@signup_token_opens_profile_route MockJwt.mock secret empty alice 1 0).
  reflexivity.
Defined.

Lemma protect_reads_prefix_and_second_segment_witness :
  protect (J := MockJwt.mock) secret
          (Some ("Bearer" ++ "ish" ++ " " ++ "abc")%string) 0 =
  protect (J := MockJwt.mock) secret (Some ("Bearer " ++ "abc")%string) 0
  /\
  protect (J := MockJwt.mock) secret
          (Some ("Bearer" ++ "ish" ++ " " ++ "abc" ++ " " ++ "and more")%string) 0 =
  protect (J := MockJwt.mock) secret (Some ("Bearer " ++ "abc")%string) 0.
Proof.
  apply (@protect_reads_prefix_and_second_segment MockJwt.mock secret
           "ish" "abc" "and more" 0); reflexivity.
Defined.
